(** * Receipt and invoice processing: field extraction and file naming

    A shallow embedding of the two scripts of the repository,

      - [meriwether-invoice-processor.py]  (module [Invoice]), and
      - [northwest-receipt-processor.py]   (module [Receipt]),

    together with the fragments of the Python runtime they call
    ([str] methods, the [re] module, [datetime.strptime]/[strftime],
    [os.path]).

    Modelling conventions.

    - A Python [str] is a list of characters ([list ascii]).  The model is
      the one of ASCII text: a character code above 127 is an ordinary
      character that is neither a letter, a digit nor white space and that
      case conversion leaves alone.
    - An exception is a value of type [exn]; a computation that can raise
      returns [result A].  Code that renames files runs in the monad [io],
      which carries the list of file-system and console events performed
      so far.
    - The PDF text layer, the page rendering, the OCR engine and
      [dateutil.parser.parse] are external collaborators: they are
      fields of the record [world]. *)

From Stdlib Require Import Ascii String.
From Stdlib Require Import Bool Arith Lia List.
Import ListNotations.

(** ** Python strings *)

Module PyStr.

Definition str := list ascii.

(** String literals: [py "INVOICE"]. *)
Definition py (s : string) : str := list_ascii_of_string s.

Definition code (c : ascii) : nat := nat_of_ascii c.

Definition ascii_eqb (a b : ascii) : bool := Ascii.eqb a b.

Fixpoint str_eqb (a b : str) : bool :=
  match a, b with
  | [], [] => true
  | x :: a', y :: b' => ascii_eqb x y && str_eqb a' b'
  | _, _ => false
  end.

(** [str.isspace] on one ASCII character; it is also what [\s] matches
    and what [strip] and [split] remove: TAB, LF, VT, FF, CR, the four
    separators FS GS RS US, and the blank. *)
Definition is_space (c : ascii) : bool :=
  let n := code c in
  ((9 <=? n) && (n <=? 13)) || ((28 <=? n) && (n <=? 32)).

Definition is_digit (c : ascii) : bool :=
  let n := code c in (48 <=? n) && (n <=? 57).

Definition is_upper (c : ascii) : bool :=
  let n := code c in (65 <=? n) && (n <=? 90).

Definition is_lower (c : ascii) : bool :=
  let n := code c in (97 <=? n) && (n <=? 122).

Definition is_alpha (c : ascii) : bool := is_upper c || is_lower c.

Definition is_alnum (c : ascii) : bool := is_alpha c || is_digit c.

(** What [\w] matches: letters, digits and the underscore. *)
Definition is_word (c : ascii) : bool := is_alnum c || (code c =? 95).

Definition to_lower (c : ascii) : ascii :=
  if is_upper c then ascii_of_nat (code c + 32) else c.

Definition to_upper (c : ascii) : ascii :=
  if is_lower c then ascii_of_nat (code c - 32) else c.

(** [s.lower()] and [s.upper()] *)
Definition lower (s : str) : str := map to_lower s.
Definition upper (s : str) : str := map to_upper s.

(** [s.startswith(p)] *)
Fixpoint startswith (p s : str) : bool :=
  match p, s with
  | [], _ => true
  | _ :: _, [] => false
  | a :: p', b :: s' => ascii_eqb a b && startswith p' s'
  end.

(** [s.startswith((p1, p2, ...))] *)
Definition startswith_any (ps : list str) (s : str) : bool :=
  existsb (fun p => startswith p s) ps.

(** [p in s] *)
Fixpoint contains (p s : str) : bool :=
  startswith p s ||
  match s with
  | [] => false
  | _ :: s' => contains p s'
  end.

(** [s.lstrip()], [s.rstrip()], [s.strip()] *)
Fixpoint lstrip (s : str) : str :=
  match s with
  | [] => []
  | c :: s' => if is_space c then lstrip s' else s
  end.

Fixpoint rstrip (s : str) : str :=
  match s with
  | [] => []
  | c :: s' =>
      match rstrip s' with
      | [] => if is_space c then [] else [c]
      | r => c :: r
      end
  end.

Definition strip (s : str) : str := rstrip (lstrip s).

(** [s.split()]: the maximal runs of characters that are not white
    space, in order. *)
Fixpoint split (s : str) : list str :=
  match s with
  | [] => []
  | c :: s' =>
      if is_space c then split s'
      else
        match s' with
        | [] => [[c]]
        | c' :: _ =>
            if is_space c' then [c] :: split s'
            else
              match split s' with
              | w :: ws => (c :: w) :: ws
              | [] => [[c]]
              end
        end
  end.

(** Line boundaries of [str.splitlines] among the ASCII characters:
    LF, VT, FF, CR, FS, GS, RS (and CR LF, which counts once). *)
Definition is_linebreak (c : ascii) : bool :=
  let n := code c in
  ((10 <=? n) && (n <=? 13)) || ((28 <=? n) && (n <=? 30)).

(** [s.splitlines()] *)
Fixpoint splitlines (s : str) : list str :=
  match s with
  | [] => []
  | c :: s' =>
      if is_linebreak c then
        match s' with
        | c' :: s'' =>
            if (code c =? 13) && (code c' =? 10)
            then [] :: splitlines s''
            else [] :: splitlines s'
        | [] => [[]]
        end
      else
        match splitlines s' with
        | l :: ls => (c :: l) :: ls
        | [] => [[c]]
        end
  end.

(** [sep.join(parts)] *)
Fixpoint join (sep : str) (parts : list str) : str :=
  match parts with
  | [] => []
  | [p] => p
  | p :: ps => p ++ sep ++ join sep ps
  end.

(** [s.replace(old, new)] for a one-character [old]; the scripts call
    it with ["/"] and [","] only. *)
Definition replace (old : ascii) (new : str) (s : str) : str :=
  flat_map (fun c => if ascii_eqb c old then new else [c]) s.

(** [s.rfind(c)] for a one-character [c]: the position after the last
    occurrence (that is, [rfind + 1]), [0] when there is none. *)
Fixpoint rfind_succ (c : ascii) (s : str) : nat :=
  match s with
  | [] => 0
  | a :: s' =>
      match rfind_succ c s' with
      | 0 => if ascii_eqb a c then 1 else 0
      | S k => S (S k)
      end
  end.

(** Decimal digits of a number, padded with zeros to [width]:
    the [%02d] and [%04d] of the format codes. *)
Definition digit_char (n : nat) : ascii := ascii_of_nat (48 + n mod 10).

Fixpoint pad_digits (width n : nat) : str :=
  match width with
  | 0 => []
  | S w => pad_digits w (n / 10) ++ [digit_char n]
  end.

(** The number a string of decimal digits denotes. *)
Definition digit_val (c : ascii) : nat := code c - 48.

Definition number_of (s : str) : nat :=
  fold_left (fun acc c => 10 * acc + digit_val c) s 0.

(** The longest prefix made of characters of a class, and the rest. *)
Fixpoint take_while (p : ascii -> bool) (s : str) : str * str :=
  match s with
  | [] => ([], [])
  | c :: s' =>
      if p c then let (d, r) := take_while p s' in (c :: d, r)
      else ([], s)
  end.

(** The leading decimal digits of a string, and what follows them. *)
Definition take_digits (s : str) : str * str := take_while is_digit s.





(** Lines that start with a character that is not white space. *)
Definition starts_unspaced (line : str) : Prop :=
  exists c r, line = c :: r /\ is_space c = false.

(** Strings without white space, and strings of white space only. *)
Definition no_space (s : str) : Prop := Forall (fun c => is_space c = false) s.

Definition blank (s : str) : Prop := Forall (fun c => is_space c = true) s.

End PyStr.

(** ** The fragment of the [re] module the scripts use

    Every pattern of the two scripts is a sequence of literal characters,
    character classes under a greedy repetition ([\s*], [\d{1,2}],
    [[\d,]+], [\$?] ...), the assertions [\b], [^] and [$], and at most
    one capturing group, which is not nested.  The matcher below is the
    backtracking matcher of [re] for that fragment: a repetition first
    takes as many characters as it can and gives them back one at a time
    while the rest of the pattern fails. *)

Module Re.
Import PyStr.

Inductive atom : Type :=
| Lit (c : ascii)                                        (* a literal character *)
| Cls (p : ascii -> bool) (lo : nat) (hi : option nat)   (* [class]{lo,hi}, greedy *)
| WordB                                                  (* \b *)
| Bol                                                    (* ^ *)
| Eol.                                                   (* $ *)

Inductive node : Type :=
| At (a : atom)
| Group (body : list atom).                              (* ( ... ) *)

Definition regex := list node.

(** A literal and a class against one character; [ic] is [re.IGNORECASE]. *)
Definition lit_ok (ic : bool) (c a : ascii) : bool :=
  if ic then ascii_eqb (to_lower c) (to_lower a) else ascii_eqb c a.

Definition cls_ok (ic : bool) (p : ascii -> bool) (a : ascii) : bool :=
  if ic then p (to_lower a) || p (to_upper a) else p a.

(** Length of the longest prefix a repetition can take. *)
Fixpoint span (ic : bool) (p : ascii -> bool) (hi : option nat) (s : str) : nat :=
  match s with
  | [] => 0
  | a :: s' =>
      match hi with
      | Some 0 => 0
      | _ => if cls_ok ic p a then S (span ic p (option_map pred hi) s') else 0
      end
  end.

(** Try [f n], [f (n-1)], ..., [f lo] and keep the first success. *)
Fixpoint backoff {R : Type} (f : nat -> option R) (lo n : nat) : option R :=
  if n <? lo then None
  else
    match f n with
    | Some r => Some r
    | None =>
        match n with
        | 0 => None
        | S n' => backoff f lo n'
        end
    end.

(** The character before the position reached after [n] more characters. *)
Definition prev_after (prev : option ascii) (s : str) (n : nat) : option ascii :=
  match n with
  | 0 => prev
  | S k => nth_error s k
  end.

Definition word_opt (c : option ascii) : bool :=
  match c with
  | Some a => is_word a
  | None => false
  end.

(** [m_atoms ic ats prev s k]: match [ats] at the front of [s], where
    [prev] is the character just before [s] in the subject ([None] at its
    start), then hand the position reached to [k]; when [k] fails the
    matcher backtracks. *)
Fixpoint m_atoms {R : Type} (ic : bool) (ats : list atom)
    (prev : option ascii) (s : str)
    (k : option ascii -> str -> option R) : option R :=
  match ats with
  | [] => k prev s
  | Lit c :: ats' =>
      match s with
      | a :: s' => if lit_ok ic c a then m_atoms ic ats' (Some a) s' k else None
      | [] => None
      end
  | Cls p lo hi :: ats' =>
      backoff (fun n => m_atoms ic ats' (prev_after prev s n) (skipn n s) k)
              lo (span ic p hi s)
  | WordB :: ats' =>
      if xorb (word_opt prev) (word_opt (hd_error s))
      then m_atoms ic ats' prev s k else None
  | Bol :: ats' =>
      match prev with
      | None => m_atoms ic ats' prev s k
      | Some _ => None
      end
  | Eol :: ats' =>
      match s with
      | [] => m_atoms ic ats' prev s k
      | [c] => if code c =? 10 then m_atoms ic ats' prev s k else None
      | _ => None
      end
  end.

(** Nodes: the same, recording what the group consumed. *)
Fixpoint m_nodes {R : Type} (ic : bool) (ns : regex)
    (prev : option ascii) (s : str) (g : option str)
    (k : option ascii -> str -> option str -> option R) : option R :=
  match ns with
  | [] => k prev s g
  | At a :: ns' =>
      m_atoms ic [a] prev s (fun p' s' => m_nodes ic ns' p' s' g k)
  | Group body :: ns' =>
      m_atoms ic body prev s
        (fun p' s' =>
           m_nodes ic ns' p' s' (Some (firstn (length s - length s') s)) k)
  end.

(** A match at the current position: its length and [group(1)]. *)
Definition match_here (ic : bool) (re : regex) (prev : option ascii) (s : str)
  : option (nat * option str) :=
  m_nodes ic re prev s None
    (fun _ s' g => Some (length s - length s', g)).

(** The same, for a match that must reach the end of the subject. *)
Definition match_to_end (ic : bool) (re : regex) (prev : option ascii) (s : str)
  : option (nat * option str) :=
  m_nodes ic re prev s None
    (fun _ s' g => match s' with
                   | [] => Some (length s, g)
                   | _ :: _ => None
                   end).

(** Match objects: [m.start()], [m.end()] and [m.group(1)]. *)
Record match_obj : Type := MatchObj {
  m_start : nat;
  m_end : nat;
  m_group1 : option str
}.

(** [m.group(1)] where the pattern has a group that always takes part. *)
Definition group1 (m : match_obj) : str :=
  match m_group1 m with
  | Some g => g
  | None => []
  end.

Fixpoint search_from (ic : bool) (re : regex) (prev : option ascii)
    (s : str) (start : nat) : option match_obj :=
  match match_here ic re prev s with
  | Some (len, g) => Some (MatchObj start (start + len) g)
  | None =>
      match s with
      | [] => None
      | c :: s' => search_from ic re (Some c) s' (S start)
      end
  end.

(** [re.search(re, s, flags)]: the leftmost match. *)
Definition search (re : regex) (ic : bool) (s : str) : option match_obj :=
  search_from ic re None s 0.

(** [re.match(re, s)]: a match at position 0. *)
Definition match_ (re : regex) (ic : bool) (s : str) : option match_obj :=
  match match_here ic re None s with
  | Some (len, g) => Some (MatchObj 0 len g)
  | None => None
  end.

(** [re.fullmatch(re, s)] *)
Definition fullmatch (re : regex) (ic : bool) (s : str) : option match_obj :=
  match match_to_end ic re None s with
  | Some (len, g) => Some (MatchObj 0 len g)
  | None => None
  end.

(** [re.sub(re, repl, s)] for a pattern that cannot match the empty
    string (all the patterns given to [re.sub] are a class repeated at
    least once).  [skip] counts the characters of the current match that
    are still to be dropped. *)
Fixpoint sub_go (ic : bool) (re : regex) (repl : str)
    (prev : option ascii) (s : str) (skip : nat) : str :=
  match s with
  | [] => []
  | c :: s' =>
      match skip with
      | S k => sub_go ic re repl (Some c) s' k
      | 0 =>
          match match_here ic re prev s with
          | Some (S len, _) => repl ++ sub_go ic re repl (Some c) s' len
          | _ => c :: sub_go ic re repl (Some c) s' 0
          end
      end
  end.

Definition sub (re : regex) (repl : str) (s : str) : str :=
  sub_go false re repl None s 0.

(** [re.split(re, s)[0]]: what precedes the first match, the whole
    subject when there is none. *)
Definition split_first (re : regex) (s : str) : str :=
  match search re false s with
  | Some m => firstn (m_start m) s
  | None => s
  end.

(** Pattern building. *)
Definition lits (s : string) : list atom := map Lit (py s).
Definition seq (ats : list atom) : regex := map At ats.

Definition star (p : ascii -> bool) : atom := Cls p 0 None.
Definition plus (p : ascii -> bool) : atom := Cls p 1 None.
Definition opt (p : ascii -> bool) : atom := Cls p 0 (Some 1).
Definition rep (p : ascii -> bool) (lo hi : nat) : atom := Cls p lo (Some hi).
Definition at_least (p : ascii -> bool) (lo : nat) : atom := Cls p lo None.

Definition chr (c : string) : ascii -> bool :=
  fun a => match py c with
           | [x] => ascii_eqb a x
           | _ => false
           end.

Definition either (p q : ascii -> bool) : ascii -> bool := fun a => p a || q a.

(** What a sequence of atoms can consume, assertions put aside: the
    declarative reading of the fragment. *)
Fixpoint consumes (ic : bool) (ats : list atom) (c : str) : Prop :=
  match ats with
  | [] => c = []
  | Lit x :: ats' =>
      exists a c', c = a :: c' /\ lit_ok ic x a = true /\ consumes ic ats' c'
  | Cls p lo hi :: ats' =>
      exists run c', c = run ++ c' /\
        Forall (fun a => cls_ok ic p a = true) run /\
        lo <= length run /\
        match hi with Some h => length run <= h | None => True end /\
        consumes ic ats' c'
  | _ :: ats' => consumes ic ats' c
  end.

(** The number both scripts take for an amount, [[\d,]+\.\d{2}]
    (written [[0-9,]+\.\d{2}] in the invoice script). *)
Definition AMOUNT_BODY : list atom :=
  [plus (either is_digit (chr ",")); Lit "."; rep is_digit 2 2].

(** The atoms of a pattern, group brackets removed. *)
Definition atoms_of (re : regex) : list atom :=
  flat_map (fun n => match n with At a => [a] | Group body => body end) re.

Definition has_group (ns : regex) : bool :=
  existsb (fun n => match n with Group _ => true | At _ => false end) ns.

(** What a match object may report as its group: nothing when the
    pattern has no group, and otherwise a string that the body of a group
    of the pattern consumes. *)
Definition group_sound (ic : bool) (re : regex) (m : match_obj) : Prop :=
  (has_group re = false /\ m_group1 m = None) \/
  (exists body c, In (Group body) re /\ m_group1 m = Some c /\ consumes ic body c).

End Re.

(** ** Exceptions and effects *)

Module Py.
Import PyStr.

Inductive exn : Type :=
| ValueError (msg : str)
| IndexError (msg : str)
| SystemExit (msg : str).

Inductive result (A : Type) : Type :=
| Ok (a : A)
| Raise (e : exn).

Arguments Ok {A} a.
Arguments Raise {A} e.

Definition bind {A B : Type} (r : result A) (f : A -> result B) : result B :=
  match r with
  | Ok a => f a
  | Raise e => Raise e
  end.

(** What a script does to the outside: [os.rename] and [print]. *)
Inductive event : Type :=
| Rename (src dst : str)
| Print (line : str)
| PrintJson (fileName company amount date : str).

(** A computation with effects: the events performed, in order, and the
    value returned or the exception that ended it. *)
Definition io (A : Type) : Type := (list event * result A)%type.

Definition ret {A : Type} (a : A) : io A := ([], Ok a).

Definition lift {A : Type} (r : result A) : io A := ([], r).

Definition emit (e : event) : io unit := ([e], Ok tt).

Definition io_bind {A B : Type} (m : io A) (f : A -> io B) : io B :=
  match m with
  | (evs, Ok a) => let (evs', r) := f a in (evs ++ evs', r)
  | (evs, Raise e) => (evs, Raise e)
  end.

(** The position of the first element that satisfies [f]. *)
Fixpoint first_index {A : Type} (f : A -> bool) (l : list A) : option nat :=
  match l with
  | [] => None
  | x :: l' => if f x then Some 0 else option_map S (first_index f l')
  end.

(** The first result a function gives along a list: the loops of the
    form [for line in lines: m = ...; if m: ...; break]. *)
Fixpoint first_some {A B : Type} (f : A -> option B) (l : list A) : option B :=
  match l with
  | [] => None
  | x :: l' =>
      match f x with
      | Some b => Some b
      | None => first_some f l'
      end
  end.

End Py.

Declare Scope io_scope.
Delimit Scope io_scope with io.
Notation "x <- m ;; k" := (Py.io_bind m (fun x => k))
  (at level 61, m at next level, right associativity) : io_scope.
Notation "m ;;; k" := (Py.io_bind m (fun _ => k))
  (at level 61, right associativity) : io_scope.

Declare Scope result_scope.
Delimit Scope result_scope with result.
Notation "x <~ r ;; k" := (Py.bind r (fun x => k))
  (at level 61, r at next level, right associativity) : result_scope.

(** ** Calendar dates: [datetime.strptime] and [strftime] *)

Module Datetime.
Import PyStr Py.

(** The scripts only ever format a [datetime] with [%Y-%m-%d]: the
    time of day is left out of the model. *)
Record datetime : Type := Date {
  year : nat;
  month : nat;
  day : nat
}.

Definition is_leap (y : nat) : bool :=
  (y mod 4 =? 0) && (negb (y mod 100 =? 0) || (y mod 400 =? 0)).

Definition days_in_month (y m : nat) : nat :=
  match m with
  | 2 => if is_leap y then 29 else 28
  | 4 | 6 | 9 | 11 => 30
  | _ => 31
  end.

Definition len_in (lo hi : nat) (s : str) : bool :=
  (lo <=? length s) && (length s <=? hi).

(** [datetime.strptime(tok, "%m/%d/%Y")].  The format has to match the
    whole of [tok]: one or two digits of a month from 1 to 12, a slash,
    one or two digits of a day from 1 to 31, a slash, four digits of a
    year; then the date has to exist (year at least 1, day within the
    month).  Anything else is a [ValueError]. *)
Definition strptime_mdY (tok : str) : result datetime :=
  let bad := Raise (ValueError (py "time data does not match format '%m/%d/%Y'")) in
  let (mm, r1) := take_digits tok in
  match r1 with
  | sep1 :: r1' =>
      let (dd, r2) := take_digits r1' in
      match r2 with
      | sep2 :: yyyy =>
          let m := number_of mm in
          let d := number_of dd in
          let y := number_of yyyy in
          if ascii_eqb sep1 "/" && ascii_eqb sep2 "/"
             && len_in 1 2 mm && len_in 1 2 dd
             && forallb is_digit yyyy && (length yyyy =? 4)
             && (1 <=? m) && (m <=? 12) && (1 <=? d) && (d <=? 31)
          then
            if (1 <=? y) && (d <=? days_in_month y m)
            then Ok (Date y m d)
            else Raise (ValueError (py "day is out of range for month"))
          else bad
      | [] => bad
      end
  | [] => bad
  end.

(** [dt.strftime("%Y-%m-%d")], the year on four digits. *)
Definition strftime_Ymd (dt : datetime) : str :=
  pad_digits 4 (year dt) ++ py "-" ++ pad_digits 2 (month dt) ++ py "-"
    ++ pad_digits 2 (day dt).

End Datetime.

(** ** [os.path] (POSIX flavour) *)

Module OsPath.
Import PyStr.

(** [os.path.basename(p)]: what follows the last slash. *)
Definition basename (p : str) : str := skipn (rfind_succ "/" p) p.

(** [os.path.split(p)]: the head loses its trailing slashes unless it
    consists of slashes only. *)
Definition rstrip_slash (s : str) : str :=
  rev ((fix drop (r : str) : str :=
          match r with
          | c :: r' => if ascii_eqb c "/" then drop r' else r
          | [] => []
          end) (rev s)).

Definition split (p : str) : str * str :=
  let i := rfind_succ "/" p in
  let head := firstn i p in
  let tail := skipn i p in
  if forallb (fun c => ascii_eqb c "/") head then (head, tail)
  else (rstrip_slash head, tail).

Definition dirname (p : str) : str := fst (split p).

(** [os.path.join(a, b)] *)
Definition join (a b : str) : str :=
  if startswith (py "/") b then b
  else
    match rev a with
    | [] => b
    | c :: _ => if ascii_eqb c "/" then a ++ b else a ++ py "/" ++ b
    end.

(** [os.path.splitext(p)]: the extension starts at the last dot of the
    last component, unless that component has only dots before it. *)
Definition splitext (p : str) : str * str :=
  let sep1 := rfind_succ "/" p in
  let dot1 := rfind_succ "." p in
  if sep1 <? dot1 then
    let dot := dot1 - 1 in
    if existsb (fun c => negb (ascii_eqb c "."))
               (firstn (dot - sep1) (skipn sep1 p))
    then (firstn dot p, skipn dot p)
    else (p, [])
  else (p, []).

End OsPath.

(** ** The collaborators *)

Module World.
Import PyStr Datetime.

(** What rendering the first page, cropping its top quarter and running
    the OCR engine on the crop comes to. *)
Inductive logo_scan : Type :=
| ScanRaises                 (* any of the three steps raised *)
| ScanNoImages               (* [convert_from_path] returned no image *)
| ScanText (ocr_text : str). (* [pytesseract.image_to_string] returned *)

Record world : Type := World {
  (** [os.path.abspath] (it depends on the working directory) *)
  abspath : str -> str;
  (** [os.path.isfile] *)
  isfile : str -> bool;
  (** [page.extract_text()] for each page of the PDF, [None] for a page
      without text *)
  pdf_pages : str -> list (option str);
  (** the top band of the first page, through the OCR engine *)
  logo_ocr : str -> logo_scan;
  (** [dateutil.parser.parse(s, fuzzy=True)]; [None] when it raises *)
  dateparser_parse : str -> option datetime
}.

(** [page.extract_text() or ""] *)
Definition page_text (t : option str) : str :=
  match t with
  | Some s => s
  | None => []
  end.

(** ["\n".join(page.extract_text() or "" for page in pdf.pages)] *)
Definition document_text (w : world) (pdf_path : str) : str :=
  join (py (String "010" EmptyString)) (map page_text (pdf_pages w pdf_path)).

(** [[ln.strip() for ln in text.splitlines() if ln.strip()]] *)
Definition text_lines (text : str) : list str :=
  map strip (filter (fun ln => negb (str_eqb (strip ln) [])) (splitlines text)).

End World.

(** ** [meriwether-invoice-processor.py] *)

Module Invoice.
Import PyStr Re Py Datetime World.

(** The dictionary, as the list of its items in insertion order: the
    loop of [normalize_company_name] walks it in that order. *)
Definition COMPANY_NORMALIZATION : list (str * str) :=
  [ (py "meriwether pest & wildlife", py "Meriwether");
    (py "meriwether pest", py "Meriwether");
    (py "meriwether", py "Meriwether") ].

(** [normalize_company_name] over a given table.  [name] is [None] when
    the caller passes Python's [None]. *)
Definition normalize_company_name_with (table : list (str * str))
    (name : option str) : result str :=
  match name with
  | None | Some [] => Ok (py "Unknown")
  | Some name =>
      let lower := lower name in
      match find (fun kv => contains (fst kv) lower) table with
      | Some (_, short) => Ok short
      | None =>
          (* fallback: take first word *)
          match split (strip name) with
          | w :: _ => Ok w
          | [] => Raise (IndexError (py "list index out of range"))
          end
      end
  end.

Definition normalize_company_name (name : option str) : result str :=
  normalize_company_name_with COMPANY_NORMALIZATION name.

(** The patterns of [extract_invoice_fields]. *)

(** [\bDATE\s+(\d{1,2}/\d{1,2}/\d{4})] *)
Definition DATE_RE : regex :=
  seq (WordB :: lits "DATE" ++ [plus is_space])
  ++ [Group [rep is_digit 1 2; Lit "/"; rep is_digit 1 2; Lit "/";
             rep is_digit 4 4]].

(** [INVOICE\s*#\s*([A-Za-z0-9\-]+)] *)
Definition INVOICE_NO_RE : regex :=
  seq (lits "INVOICE" ++ [star is_space; Lit "#"; star is_space])
  ++ [Group [plus (either is_alnum (chr "-"))]].

(** [#\s*([0-9]{4,})] *)
Definition HASH_NO_RE : regex :=
  seq [Lit "#"; star is_space] ++ [Group [at_least is_digit 4]].

(** [Subtotal\s+\$?([0-9,]+\.\d{2})] *)
Definition SUBTOTAL_RE : regex :=
  seq (lits "Subtotal" ++ [plus is_space; opt (chr "$")])
  ++ [Group AMOUNT_BODY].

(** [\s{2,}] *)
Definition TWO_SPACES_RE : regex := seq [at_least is_space 2].

Definition is_anchor (line : str) : bool :=
  startswith (py "INVOICE") (upper line).

Definition METADATA_PREFIXES : list str :=
  [py "ACCOUNT #"; py "PO #"; py "DATE"].

(** The test of the walk upwards: [cand and not
    cand.upper().startswith(("ACCOUNT #", "PO #", "DATE"))]. *)
Definition is_business_name (cand : str) : bool :=
  negb (str_eqb cand []) && negb (startswith_any METADATA_PREFIXES (upper cand)).

(** Lines that start like one of the labels the walk skips. *)
Definition is_metadata_label (line : str) : bool :=
  startswith_any METADATA_PREFIXES (upper line).

(** 1) find company name (above INVOICE) *)
Definition find_company_name (lines : list str) : option str :=
  let company_name :=
    match first_index is_anchor lines with
    | Some i =>
        (* for j in range(i - 1, -1, -1): cand = lines[j].strip() *)
        find is_business_name (map strip (rev (firstn i lines)))
    | None => None
    end in
  match company_name, lines with
  | Some (_ :: _), _ => company_name
  | _, first :: _ => Some first       (* if not company_name and lines *)
  | _, [] => company_name
  end.

(** 2) service date: the line after the first one that contains
    "Service Date", cut at the first run of two or more blanks and given
    to the fuzzy parser. *)
Definition service_date_lookahead (w : world) (lines : list str)
  : option datetime :=
  match first_index (contains (py "Service Date")) lines with
  | Some i =>
      match nth_error lines (i + 1) with
      | Some next_line =>
          let first_part := split_first TWO_SPACES_RE next_line in
          dateparser_parse w first_part
      | None => None
      end
  | None => None
  end.

(** fallback to "DATE 09/22/2025": the first line the pattern matches;
    [strptime] may raise. *)
Definition service_date_fallback (lines : list str) : result (option datetime) :=
  match first_some (search DATE_RE true) lines with
  | Some m => (d <~ strptime_mdY (group1 m) ;; Ok (Some d))%result
  | None => Ok None
  end.

Definition find_service_date (w : world) (lines : list str)
  : result (option datetime) :=
  match service_date_lookahead w lines with
  | Some d => Ok (Some d)
  | None => service_date_fallback lines
  end.

(** 3) invoice number *)
Definition find_invoice_number (lines : list str) : option str :=
  match first_some (search INVOICE_NO_RE true) lines with
  | Some m => Some (group1 m)
  | None =>
      (* softer fallback: look for "#12345" *)
      match first_some (search HASH_NO_RE false) lines with
      | Some m => Some (group1 m)
      | None => None
      end
  end.

(** 4) amount (stay with Subtotal like before) *)
Definition find_amount (lines : list str) : option str :=
  match first_some (search SUBTOTAL_RE true) lines with
  | Some m => Some (group1 m)
  | None => None
  end.

Record fields : Type := Fields {
  company_name : option str;
  service_date : datetime;
  invoice_number : option str;
  amount : option str;
  raw_text : str
}.

(** [extract_invoice_fields] once the text layer has been read. *)
Definition extract_fields_of_text (w : world) (text : str) : result fields :=
  let lines := text_lines text in
  let company_name := find_company_name lines in
  (found <~ find_service_date w lines ;;
   match found with
   | None => Raise (ValueError (py "Could not find service date"))
   | Some service_date =>
       let invoice_number := find_invoice_number lines in
       let amount := find_amount lines in
       Ok (Fields company_name service_date invoice_number amount text)
   end)%result.

Definition extract_invoice_fields (w : world) (pdf_path : str) : result fields :=
  extract_fields_of_text w (document_text w pdf_path).

Definition sanitize_for_filename (s : str) : str :=
  replace "/" (py "-") (strip s).

Definition build_new_filename (original_path : str) (service_date : datetime)
    (short_company : str) (invoice_number : str) : str :=
  let (base, ext) := OsPath.splitext (OsPath.basename original_path) in
  let date_prefix := strftime_Ymd service_date in
  let short_company := sanitize_for_filename short_company in
  let inv_part :=
    match invoice_number with
    | _ :: _ => py "Invoice #" ++ invoice_number
    | [] => base
    end in
  date_prefix ++ py "-" ++ short_company ++ py "-" ++ inv_part ++ ext.

(** [data.get("invoice_number") or ""] *)
Definition or_empty (s : option str) : str :=
  match s with
  | Some s => s
  | None => []
  end.

Definition process_invoice (w : world) (pdf_path : str) (rename : bool) : io str :=
  (data <- lift (extract_invoice_fields w pdf_path) ;;
   short_company <- lift (normalize_company_name (company_name data)) ;;
   let new_name :=
     build_new_filename pdf_path (service_date data) short_company
       (or_empty (invoice_number data)) in
   if rename then
     let folder := OsPath.dirname pdf_path in
     let new_path := OsPath.join folder new_name in
     emit (Rename pdf_path new_path) ;;;
     emit (Print (py "Renamed to: " ++ new_path)) ;;;
     ret new_path
   else
     emit (Print (py "Would rename to: " ++ new_name)) ;;;
     ret new_name)%io.

End Invoice.

(** ** [northwest-receipt-processor.py] *)

Module Receipt.
Import PyStr Re Py Datetime World.

Definition extract_text_with_pdfplumber (w : world) (pdf_path : str) : str :=
  document_text w pdf_path.

(** The tail the three amount patterns share: [\s*\$?([\d,]+\.\d{2})]. *)
Definition AMOUNT_TAIL : regex :=
  seq [star is_space; opt (chr "$")] ++ [Group AMOUNT_BODY].

Definition AMOUNT_PATTERNS : list regex :=
  [ seq (lits "PAYMENT AMOUNT") ++ AMOUNT_TAIL;
    seq (lits "AMOUNT") ++ AMOUNT_TAIL;
    seq (lits "TOTAL") ++ AMOUNT_TAIL ].

(** [for pat in patterns: m = re.search(pat, text, re.IGNORECASE) ...] *)
Fixpoint first_match (pats : list regex) (text : str) : option match_obj :=
  match pats with
  | [] => None
  | pat :: pats' =>
      match search pat true text with
      | Some m => Some m
      | None => first_match pats' text
      end
  end.

Definition extract_amount (text : str) : result str :=
  match first_match AMOUNT_PATTERNS text with
  | Some m => Ok (replace "," [] (group1 m))
  | None => Raise (ValueError (py "Could not find payment amount in receipt text."))
  end.

(** [(\d{1,2}/\d{1,2}/\d{4})] *)
Definition DATE_GROUP : node :=
  Group [rep is_digit 1 2; Lit "/"; rep is_digit 1 2; Lit "/"; rep is_digit 4 4].

(** [DATE[:\s]+(\d{1,2}/\d{1,2}/\d{4})] *)
Definition LABELED_DATE_RE : regex :=
  seq (lits "DATE" ++ [plus (either (chr ":") is_space)]) ++ [DATE_GROUP].

Definition BARE_DATE_RE : regex := [DATE_GROUP].

Definition extract_date (text : str) : result str :=
  let m :=
    match search LABELED_DATE_RE true text with
    | Some m => Some m
    | None => search BARE_DATE_RE false text
    end in
  match m with
  | None => Raise (ValueError (py "Could not find date in receipt text."))
  | Some m =>
      let raw := group1 m in
      (dt <~ strptime_mdY raw ;;
       (* Filename/date field format: YYYY-MM-dd *)
       Ok (strftime_Ymd dt))%result
  end.

(** [\bnorthwest exterminating\b] and [\bnorthwest\b] *)
Definition KNOWN : list (regex * str) :=
  [ (seq (WordB :: lits "northwest exterminating" ++ [WordB]),
     py "Northwest Exterminating");
    (seq (WordB :: lits "northwest" ++ [WordB]), py "Northwest") ].

Definition SKIP_EXACT : list str :=
  [ py "payment"; py "receipt"; py "payment receipt"; py "confirmation";
    py "amount"; py "date"; py "credit card"; py "name on card" ].

Definition SKIP_LABELS : list str :=
  [ py "payment receipt"; py "confirmation number"; py "payment amount";
    py "credit card"; py "name on card"; py "date " ].

(** [\s+] *)
Definition SPACES_RE : regex := seq [plus is_space].

(** [^[A-Z ]+\d+$] *)
Definition LABEL_DIGITS_RE : regex :=
  seq [Bol; plus (either is_upper (chr " ")); plus is_digit; Eol].

(** [[\d\s\-#]+] *)
Definition CODEISH_RE : regex :=
  seq [plus (either is_digit (either is_space (either (chr "-") (chr "#"))))].

Definition is_some {A : Type} (o : option A) : bool :=
  match o with
  | Some _ => true
  | None => false
  end.

(** The body of the loop over the first ten lines: [Some norm] when the
    line is returned, [None] when the loop goes on. *)
Definition top_band_candidate (ln : str) : option str :=
  let norm := strip (sub SPACES_RE (py " ") ln) in
  match norm with
  | [] => None
  | _ :: _ =>
      let low := lower norm in
      if existsb (str_eqb low) SKIP_EXACT then None
      else if existsb (fun label => contains label low) SKIP_LABELS then None
      (* LABEL + digits (e.g. CONFIRMATION NUMBER 1921346628) *)
      else if is_some (match_ LABEL_DIGITS_RE false norm) then None
      (* Purely numeric / code-ish *)
      else if is_some (fullmatch CODEISH_RE false norm) then None
      else Some norm
  end.

Definition known_vendor (text : str) : option str :=
  option_map snd
    (find (fun pn => is_some (search (fst pn) true text)) KNOWN).

Definition extract_company_from_text (text : str) : str :=
  match known_vendor text with
  | Some name => name
  | None =>
      (* Generic heuristic for other receipts *)
      let lines := text_lines text in
      match first_some top_band_candidate (firstn 10 lines) with
      | Some norm => norm
      | None => py "Northwest"
      end
  end.

(** [northwest exterminating] and [northwest], without [\b] *)
Definition OCR_EXTERMINATING_RE : regex := seq (lits "northwest exterminating").
Definition OCR_NORTHWEST_RE : regex := seq (lits "northwest").

Definition extract_company_from_logo_ocr (w : world) (pdf_path : str) : str :=
  match logo_ocr w pdf_path with
  | ScanNoImages => py "Unknown"
  | ScanRaises => py "Unknown"
  | ScanText ocr_text =>
      if is_some (search OCR_EXTERMINATING_RE true ocr_text)
      then py "Northwest Exterminating"
      else if is_some (search OCR_NORTHWEST_RE true ocr_text)
      then py "Northwest"
      else py "Unknown"
  end.

Definition extract_company (w : world) (text : str) (pdf_path : str) : str :=
  let company := extract_company_from_text text in
  if negb (str_eqb company (py "Unknown")) then company
  else
    (* Fallback to OCR on logo area *)
    let company_ocr := extract_company_from_logo_ocr w pdf_path in
    if negb (str_eqb company_ocr (py "Unknown")) then company_ocr
    else py "Unknown".

(** [[^A-Za-z0-9]+] *)
Definition NOT_ALNUM_RE : regex := seq [plus (fun c => negb (is_alnum c))].

Definition sanitize_company (company : str) : str :=
  match sub NOT_ALNUM_RE [] company with
  | [] => py "Unknown"
  | cleaned => cleaned
  end.

(** Lines 189 to 194 of [main]: the new name of the file. *)
Definition new_file_name (pdf_path date_iso company_for_file : str) : str :=
  let (dirpath, old_name) := OsPath.split pdf_path in
  let (_, ext) := OsPath.splitext old_name in
  let ext := match ext with
             | [] => py ".pdf"
             | _ :: _ => ext
             end in
  date_iso ++ py "-" ++ company_for_file ++ ext.

Definition main (w : world) (arg_pdf_path : str) : io unit :=
  let pdf_path := abspath w arg_pdf_path in
  if negb (isfile w pdf_path)
  then lift (Raise (SystemExit (py "File not found: " ++ pdf_path)))
  else
    (let text := extract_text_with_pdfplumber w pdf_path in
     amount <- lift (extract_amount text) ;;
     date_iso <- lift (extract_date text) ;;
     let company := extract_company w text pdf_path in
     let company_for_file := sanitize_company company in
     let new_name := new_file_name pdf_path date_iso company_for_file in
     let new_path := OsPath.join (fst (OsPath.split pdf_path)) new_name in
     (* Rename the file *)
     emit (Rename pdf_path new_path) ;;;
     emit (PrintJson new_path company amount date_iso))%io.

End Receipt.

(** ** Sample collaborators *)

Module Samples.
Import PyStr Datetime World.
Local Open Scope string_scope.

(** A stand-in for the fuzzy parser that knows one date, the one of the
    sample invoice, and raises on everything else. *)
Definition month_name_parser (s : str) : option datetime :=
  if str_eqb s (py "September 22, 2025") then Some (Date 2025 9 22) else None.

Definition nl : str := py (String "010" EmptyString).

(** A world with one document at every path: the given pages, the given
    OCR outcome. *)
Definition one_document (pages : list (option str)) (scan : logo_scan) : world :=
  World (fun p => p) (fun _ => true) (fun _ => pages) (fun _ => scan)
        month_name_parser.

(** A document of one page made of the given lines. *)
Definition page_of (lines : list string) : option str :=
  Some (join nl (map py lines)).

(** An invoice whose date only appears after the label DATE. *)
Definition invoice_labeled : world :=
  one_document
    [page_of [ "Meriwether Pest & Wildlife Control";
               "INVOICE #52359";
               "DATE 09/22/2025";
               "Technician J. Alvarez, route 12";
               "Subtotal $184.50";
               "Thank you for your business" ]]
    ScanRaises.

(** An invoice with a service date block and, further down, the date
    it was issued. *)
Definition invoice_two_kinds_of_date : world :=
  one_document
    [page_of [ "Meriwether Pest & Wildlife Control";
               "INVOICE #52359";
               "DATE 10/01/2025";
               "Service Date   Due Date";
               "September 22, 2025   October 22, 2025";
               "Subtotal $184.50" ]]
    ScanRaises.

(** An invoice that recalls the previous visit before its own figures. *)
Definition invoice_with_history : world :=
  one_document
    [page_of [ "Meriwether Pest & Wildlife Control";
               "INVOICE #52359";
               "Last visit date 08/01/2025";
               "Last visit subtotal $20.00";
               "DATE 09/22/2025";
               "Subtotal $184.50" ]]
    ScanRaises.

(** Invoices without an amount, with and without a date. *)
Definition invoice_without_subtotal : world :=
  one_document
    [page_of [ "Meriwether Pest & Wildlife Control";
               "INVOICE #52359";
               "DATE 09/22/2025" ]]
    ScanRaises.

Definition invoice_without_date_or_subtotal : world :=
  one_document
    [page_of [ "Meriwether Pest & Wildlife Control";
               "INVOICE #52359" ]]
    ScanRaises.


(** A receipt whose text layer names no vendor, and whose logo reads
    "Northwest Exterminating Pest Control". *)
Definition receipt_with_logo : world :=
  one_document
    [page_of [ "PAYMENT RECEIPT";
               "CONFIRMATION NUMBER 1921346628";
               "PAYMENT AMOUNT $1,099.00";
               "DATE 09/22/2025" ]]
    (ScanText (py "Northwest Exterminating Pest Control")).

(** Receipts without a date, and without an amount. *)
Definition receipt_without_date : world :=
  one_document
    [page_of [ "PAYMENT RECEIPT"; "PAYMENT AMOUNT $99.00" ]]
    ScanRaises.

Definition receipt_without_amount : world :=
  one_document [page_of [ "no amount text" ]] ScanRaises.

End Samples.

(** ** Shapes of names and paths *)

Module Shapes.
Import PyStr.

(** Strings without a path separator. *)
Definition no_slash (s : str) : Prop := ~ In "/"%char s.

Definition is_slash (c : ascii) : bool := ascii_eqb c "/".

(** A directory as [os.path.dirname] returns it: slashes only, or ending
    with a character that is not a slash. *)
Definition trimmed (folder : str) : Prop :=
  forallb is_slash folder = true \/
  exists f x, folder = f ++ [x] /\ x <> "/"%char.

(** The characters of an invoice number: letters, digits, hyphen. *)
Definition is_id_char (a : ascii) : bool := is_alnum a || ascii_eqb a "-".

(** An ISO-8601 calendar date, [YYYY-MM-DD], that exists: ten
    characters, digits around two hyphens, a year from 1, a month from 1
    to 12 and a day of that month. *)
Definition is_iso_date (s : str) : bool :=
  let yyyy := firstn 4 s in
  let mm := firstn 2 (skipn 5 s) in
  let dd := skipn 8 s in
  let y := number_of yyyy in
  let m := number_of mm in
  let d := number_of dd in
  (length s =? 10)
  && forallb is_digit yyyy && forallb is_digit mm && forallb is_digit dd
  && str_eqb (firstn 1 (skipn 4 s)) (py "-")
  && str_eqb (firstn 1 (skipn 7 s)) (py "-")
  && (1 <=? y) && (1 <=? m) && (m <=? 12)
  && (1 <=? d) && (d <=? Datetime.days_in_month y m).

End Shapes.

(** * Properties *)

(** ** Characters and strings *)

Module PyStrFacts.
Import PyStr.

(** Case analysis on the 256 characters. *)
Ltac each_char c :=
  destruct c as [[] [] [] [] [] [] [] []]; vm_compute; try reflexivity;
  try discriminate; auto.

Lemma ascii_eqb_eq (a b : ascii) : ascii_eqb a b = true <-> a = b.
Proof. apply Ascii.eqb_eq. Qed.

Lemma ascii_eqb_refl (a : ascii) : ascii_eqb a a = true.
Proof. apply Ascii.eqb_refl. Qed.

Lemma str_eqb_eq (a b : str) : str_eqb a b = true <-> a = b.
Proof.
  revert b; induction a as [|x a IH]; intros [|y b]; simpl;
    try (split; [discriminate | intros H; discriminate H]);
    try tauto.
  rewrite andb_true_iff, ascii_eqb_eq, IH.
  split; [intros [-> ->]; reflexivity | intros H; inversion H; auto].
Qed.

Lemma is_space_to_upper (c : ascii) : is_space (to_upper c) = is_space c.
Proof. each_char c. Qed.

Lemma is_space_to_lower (c : ascii) : is_space (to_lower c) = is_space c.
Proof. each_char c. Qed.

Lemma lower_app (a b : str) : lower (a ++ b) = lower a ++ lower b.
Proof. apply map_app. Qed.

(** *** [startswith] and [contains] *)

Lemma startswith_app (p s t : str) :
  startswith p s = true -> startswith p (s ++ t) = true.
Proof.
  revert s; induction p as [|a p IH]; intros [|b s]; simpl; auto; try discriminate.
  rewrite !andb_true_iff; intros [? ?]; auto.
Qed.

Lemma startswith_iff (p s : str) :
  startswith p s = true <-> exists t, s = p ++ t.
Proof.
  revert s; induction p as [|a p IH]; intros s; simpl.
  - split; eauto.
  - destruct s as [|b s].
    + split; [discriminate | intros [t H]; discriminate H].
    + rewrite andb_true_iff, ascii_eqb_eq, IH. split.
      * intros [-> [t ->]]; eauto.
      * intros [t H]; inversion H; eauto.
Qed.

Lemma contains_cons (p : str) (c : ascii) (s : str) :
  contains p s = true -> contains p (c :: s) = true.
Proof. intros H; simpl; rewrite H; apply orb_true_r. Qed.

Lemma contains_app_l (p a s : str) :
  contains p s = true -> contains p (a ++ s) = true.
Proof. induction a; simpl; auto. intros H; rewrite (IHa H); apply orb_true_r. Qed.

Lemma contains_app_r (p s b : str) :
  contains p s = true -> contains p (s ++ b) = true.
Proof.
  induction s as [|c s IH]; simpl.
  - rewrite orb_false_r. destruct p; [|discriminate]. intros _.
    destruct b; reflexivity.
  - rewrite !orb_true_iff; intros [H|H].
    + left. apply (startswith_app p (c :: s) b H).
    + right; auto.
Qed.

(** A pattern found in a piece of a string is found in the string. *)
Lemma contains_infix (p a s b : str) :
  contains p s = true -> contains p (a ++ s ++ b) = true.
Proof. intros H; apply contains_app_l, contains_app_r, H. Qed.

Lemma not_contains_infix (p a s b : str) :
  contains p (a ++ s ++ b) = false -> contains p s = false.
Proof.
  intros H; destruct (contains p s) eqn:E; auto.
  rewrite (contains_infix p a s b E) in H; discriminate.
Qed.

(** *** [strip] and [split] *)

Lemma lstrip_no_space_head (c : ascii) (s : str) :
  is_space c = false -> lstrip (c :: s) = c :: s.
Proof. intros H; simpl; rewrite H; reflexivity. Qed.

Lemma rstrip_no_space (s : str) : no_space s -> rstrip s = s.
Proof.
  induction 1 as [|c s Hc Hs IH]; simpl; auto.
  rewrite IH. destruct s; [rewrite Hc|]; reflexivity.
Qed.

Lemma strip_no_space (s : str) : no_space s -> strip s = s.
Proof.
  intros H; unfold strip.
  destruct H as [|c s Hc Hs]; [reflexivity|].
  rewrite lstrip_no_space_head by exact Hc.
  apply rstrip_no_space; constructor; assumption.
Qed.

Lemma split_no_space (s : str) : s <> [] -> no_space s -> split s = [s].
Proof.
  intros Hne H; induction H as [|c s Hc Hs IH]; [congruence|].
  simpl; rewrite Hc.
  destruct s as [|c' s']; [reflexivity|].
  inversion Hs as [|? ? Hc' Hs']; subst.
  rewrite Hc'. rewrite IH by discriminate. reflexivity.
Qed.

Lemma split_head (s : str) (w : str) (ws : list str) :
  split s = w :: ws ->
  w <> [] /\ no_space w /\
  exists a b, s = a ++ w ++ b /\
    match s with
    | c :: _ => is_space c = false -> a = []
    | [] => True
    end.
Proof.
  revert w ws; induction s as [|c s IH]; intros w ws; simpl; [discriminate|].
  destruct (is_space c) eqn:Hc.
  - intros H; destruct (IH _ _ H) as (Hne & Hns & a & b & -> & _).
    repeat split; auto. exists (c :: a), b; split; [reflexivity | discriminate].
  - assert (Hone : no_space [c]) by (repeat constructor; assumption).
    destruct s as [|c' s'].
    + intros H; inversion H; subst. repeat split; try discriminate; auto.
      exists [], []; auto.
    + destruct (is_space c') eqn:Hc'.
      * intros H; inversion H; subst. repeat split; try discriminate; auto.
        exists [], (c' :: s'); auto.
      * destruct (split (c' :: s')) as [|w' ws'] eqn:E.
        -- intros H; inversion H; subst. repeat split; try discriminate; auto.
           exists [], (c' :: s'); auto.
        -- intros H; inversion H; subst.
           destruct (IH _ _ eq_refl) as (Hne & Hns & a & b & Hs & Ha).
           rewrite (Ha eq_refl) in Hs; simpl in Hs.
           repeat split; try discriminate.
           ++ constructor; assumption.
           ++ exists [], b. simpl. rewrite Hs. auto.
Qed.

Lemma rstrip_head (c : ascii) (s : str) :
  is_space c = false -> exists r, rstrip (c :: s) = c :: r.
Proof.
  intros Hc; simpl. destruct (rstrip s); [rewrite Hc|]; eauto.
Qed.

(** What [strip] returns does not start with white space. *)
Lemma lstrip_head (s : str) (c : ascii) (r : str) :
  lstrip s = c :: r -> is_space c = false.
Proof.
  induction s as [|x s IH]; simpl; [discriminate|].
  destruct (is_space x) eqn:Hx; auto. intros H; inversion H; subst; auto.
Qed.

Lemma strip_head (s : str) (c : ascii) (r : str) :
  strip s = c :: r -> is_space c = false.
Proof.
  unfold strip. destruct (lstrip s) as [|x t] eqn:E; [discriminate|].
  pose proof (lstrip_head s x t E) as Hx.
  destruct (rstrip_head x t Hx) as [r' ->]. intros H; inversion H; subst; auto.
Qed.

Lemma strip_head_fixed (c : ascii) (s : str) :
  is_space c = false -> exists r, strip (c :: s) = c :: r.
Proof.
  intros Hc. unfold strip. rewrite lstrip_no_space_head by exact Hc.
  apply rstrip_head, Hc.
Qed.

Lemma split_head_nonempty (c : ascii) (s : str) :
  is_space c = false -> split (c :: s) <> [].
Proof.
  intros Hc; simpl; rewrite Hc.
  destruct s as [|c' s']; [discriminate|].
  destruct (is_space c'); [discriminate|].
  destruct (split (c' :: s')); discriminate.
Qed.

(** [strip] returns a piece of its argument. *)
Lemma lstrip_suffix (s : str) : exists a, s = a ++ lstrip s.
Proof.
  induction s as [|c s [a IH]]; simpl; [exists []; reflexivity|].
  destruct (is_space c).
  - exists (c :: a); simpl; f_equal; exact IH.
  - exists []; reflexivity.
Qed.

Lemma rstrip_prefix (s : str) : exists b, s = rstrip s ++ b.
Proof.
  induction s as [|c s [b IH]]; simpl; [exists []; reflexivity|].
  destruct (rstrip s) as [|x r] eqn:E.
  - destruct (is_space c).
    + exists (c :: s); reflexivity.
    + exists s; reflexivity.
  - exists b; simpl; f_equal; exact IH.
Qed.

Lemma strip_infix (s : str) : exists a b, s = a ++ strip s ++ b.
Proof.
  destruct (lstrip_suffix s) as [a Ha].
  destruct (rstrip_prefix (lstrip s)) as [b Hb].
  exists a, b. unfold strip. rewrite <- Hb. exact Ha.
Qed.

(** The prefixes the scripts test, which neither start nor end with
    white space, survive [strip]. *)
Lemma rstrip_keeps_prefix (p s : str) :
  p <> [] ->
  is_space (last p " "%char) = false ->
  startswith p (upper s) = true ->
  startswith p (upper (rstrip s)) = true.
Proof.
  revert s; induction p as [|a p IH]; intros s Hne Hlast; [congruence|].
  destruct s as [|c s]; [discriminate|].
  cbn [upper map startswith]. fold (upper s).
  rewrite andb_true_iff, ascii_eqb_eq. intros [Ha Hp].
  destruct p as [|a' p'].
  - assert (Hc : is_space c = false).
    { rewrite <- is_space_to_upper, <- Ha. exact Hlast. }
    destruct (rstrip_head c s Hc) as [r ->].
    cbn. rewrite <- Ha, ascii_eqb_refl. reflexivity.
  - assert (IH' := IH s ltac:(discriminate) Hlast Hp).
    cbn [rstrip]. destruct (rstrip s) as [|x r] eqn:E; [discriminate IH'|].
    cbn [upper map startswith]. rewrite <- Ha, ascii_eqb_refl. exact IH'.
Qed.

Lemma strip_keeps_prefix (p s : str) :
  is_space (hd " "%char p) = false ->
  is_space (last p " "%char) = false ->
  startswith p (upper s) = true ->
  startswith p (upper (strip s)) = true.
Proof.
  intros Hhd Hlast H.
  destruct p as [|a p]; [reflexivity|].
  destruct s as [|c s]; [discriminate|].
  assert (Hc : is_space c = false).
  { cbn in H. rewrite andb_true_iff, ascii_eqb_eq in H. destruct H as [Ha _].
    rewrite <- is_space_to_upper, <- Ha. exact Hhd. }
  unfold strip. rewrite lstrip_no_space_head by exact Hc.
  apply rstrip_keeps_prefix; auto. discriminate.
Qed.

Lemma find_all_false {A : Type} (f : A -> bool) (l : list A) :
  Forall (fun x => f x = false) l -> find f l = None.
Proof. induction 1 as [|x l Hx _ IH]; simpl; [|rewrite Hx]; auto. Qed.

Lemma find_none_all {A : Type} (f : A -> bool) (l : list A) :
  find f l = None -> Forall (fun x => f x = false) l.
Proof.
  induction l as [|x l IH]; simpl; [constructor|].
  destruct (f x) eqn:E; [discriminate|]. constructor; auto.
Qed.

End PyStrFacts.

(** ** The matcher *)

Module ReFacts.
Import PyStr PyStrFacts Re Py.

Section Matcher.

Variable ic : bool.

Lemma backoff_some {R : Type} (f : nat -> option R) (lo n : nat) (r : R) :
  backoff f lo n = Some r -> exists m, lo <= m <= n /\ f m = Some r.
Proof.
  induction n as [|n IH]; cbn [backoff].
  - destruct (0 <? lo) eqn:E; [discriminate|].
    apply Nat.ltb_ge in E. destruct (f 0) eqn:F; [|discriminate].
    intros H; inversion H; subst. exists 0; split; [lia | assumption].
  - destruct (S n <? lo) eqn:E; [discriminate|].
    apply Nat.ltb_ge in E. destruct (f (S n)) eqn:F.
    + intros H; inversion H; subst. exists (S n); split; [lia | assumption].
    + intros H. destruct (IH H) as (m & Hm & Hf). exists m; split; [lia | assumption].
Qed.

(** What a repetition takes is made of characters of its class, is no
    longer than the subject and respects the upper bound. *)
Lemma span_spec (p : ascii -> bool) (hi : option nat) (s : str) :
  span ic p hi s <= length s /\
  Forall (fun a => cls_ok ic p a = true) (firstn (span ic p hi s) s) /\
  match hi with
  | Some h => span ic p hi s <= h
  | None => True
  end.
Proof.
  revert hi; induction s as [|a s IH]; intros hi; cbn [span].
  - split; [cbn; lia | split; [constructor | destruct hi; [lia | exact I]]].
  - destruct hi as [[|h]|].
    + split; [cbn; lia | split; [constructor | lia]].
    + destruct (cls_ok ic p a) eqn:E.
      * destruct (IH (Some h)) as (H1 & H2 & H3). cbn [option_map pred length firstn] in *.
        split; [lia | split; [constructor; assumption | lia]].
      * split; [cbn; lia | split; [constructor | lia]].
    + destruct (cls_ok ic p a) eqn:E.
      * destruct (IH None) as (H1 & H2 & _). cbn [option_map length firstn] in *.
        split; [lia | split; [constructor; assumption | exact I]].
      * split; [cbn; lia | split; [constructor | exact I]].
Qed.

Lemma Forall_firstn_le {A : Type} (P : A -> Prop) (l : list A) (n m : nat) :
  n <= m -> Forall P (firstn m l) -> Forall P (firstn n l).
Proof.
  revert n m; induction l as [|x l IH]; intros n m Hle H.
  - rewrite firstn_nil; constructor.
  - destruct n as [|n]; [constructor|].
    destruct m as [|m]; [lia|].
    cbn [firstn] in *. inversion H; subst. constructor; auto.
    apply (IH n m); [lia | assumption].
Qed.

(** Soundness of the matcher: when it succeeds, the subject splits into
    what the atoms consumed and the rest, on which the continuation
    succeeded. *)
Lemma m_atoms_sound {R : Type} (ats : list atom) :
  forall (prev : option ascii) (s : str)
         (k : option ascii -> str -> option R) (r : R),
    m_atoms ic ats prev s k = Some r ->
    exists c rest prev',
      s = c ++ rest /\ consumes ic ats c /\ k prev' rest = Some r.
Proof.
  induction ats as [|a ats IH]; intros prev s k r; cbn [m_atoms].
  - intros H. exists [], s, prev. repeat split; assumption.
  - destruct a as [x|p lo hi| | |].
    + destruct s as [|a s]; [discriminate|].
      destruct (lit_ok ic x a) eqn:E; [|discriminate].
      intros H. destruct (IH _ _ _ _ H) as (c & rest & prev' & -> & Hc & Hk).
      exists (a :: c), rest, prev'. repeat split; auto.
      cbn [consumes]. exists a, c. auto.
    + intros H. apply backoff_some in H. destruct H as (m & Hm & H).
      destruct (IH _ _ _ _ H) as (c & rest & prev' & Hs & Hc & Hk).
      destruct (span_spec p hi s) as (Hlen & Hall & Hhi).
      exists (firstn m s ++ c), rest, prev'. repeat split; auto.
      * rewrite <- app_assoc, <- Hs. symmetry; apply firstn_skipn.
      * cbn [consumes]. exists (firstn m s), c.
        assert (Hl : length (firstn m s) = m) by (rewrite length_firstn; lia).
        repeat split; auto.
        -- apply (Forall_firstn_le _ s m (span ic p hi s)); [lia | assumption].
        -- lia.
        -- destruct hi; [lia | exact I].
    + destruct (xorb _ _); [|discriminate].
      intros H. destruct (IH _ _ _ _ H) as (c & rest & prev' & Hs & Hc & Hk).
      exists c, rest, prev'. auto.
    + destruct prev; [discriminate|].
      intros H. destruct (IH _ _ _ _ H) as (c & rest & prev' & Hs & Hc & Hk).
      exists c, rest, prev'. auto.
    + assert (G : m_atoms ic ats prev s k = Some r ->
                  exists c rest prev', s = c ++ rest /\ consumes ic (Eol :: ats) c
                                       /\ k prev' rest = Some r).
      { intros H. destruct (IH _ _ _ _ H) as (c & rest & prev' & Hs & Hc & Hk).
        exists c, rest, prev'. auto. }
      destruct s as [|x [|y s]]; auto; [|discriminate].
      destruct (code x =? 10); [auto | discriminate].
Qed.

(** The group a match reports is what the body of a group of the
    pattern consumed. *)
Lemma m_nodes_sound {R : Type} (ns : regex) :
  forall (prev : option ascii) (s : str) (g : option str)
         (k : option ascii -> str -> option str -> option R) (r : R),
    m_nodes ic ns prev s g k = Some r ->
    exists prev' rest g',
      k prev' rest g' = Some r /\
      ((has_group ns = false /\ g' = g) \/
       (exists body c, In (Group body) ns /\ g' = Some c /\ consumes ic body c)).
Proof.
  induction ns as [|n ns IH]; intros prev s g k r; cbn [m_nodes].
  - intros H. exists prev, s, g. split; [assumption | left; split; reflexivity].
  - destruct n as [a|body].
    + intros H. apply m_atoms_sound in H.
      destruct H as (c & rest & prev' & Hs & Hc & H).
      destruct (IH _ _ _ _ _ H) as (p2 & rest2 & g2 & Hk & Hg).
      exists p2, rest2, g2. split; [assumption|].
      destruct Hg as [[Hn ->]|(b & c' & Hin & -> & Hb)].
      * left; split; [exact Hn | reflexivity].
      * right. exists b, c'. repeat split; auto. right; assumption.
    + intros H. apply m_atoms_sound in H.
      destruct H as (c & rest & prev' & Hs & Hc & H).
      assert (Hcap : firstn (length s - length rest) s = c).
      { subst s. rewrite length_app, Nat.add_sub.
        rewrite firstn_app, firstn_all, Nat.sub_diag, firstn_O. apply app_nil_r. }
      rewrite Hcap in H.
      destruct (IH _ _ _ _ _ H) as (p2 & rest2 & g2 & Hk & Hg).
      exists p2, rest2, g2. split; [assumption|]. right.
      destruct Hg as [[Hn ->]|(b & c' & Hin & -> & Hb)].
      * exists body, c. repeat split; auto. left; reflexivity.
      * exists b, c'. repeat split; auto. right; assumption.
Qed.

Lemma search_from_sound (re : regex) (s : str) :
  forall (prev : option ascii) (start : nat) (m : match_obj),
    search_from ic re prev s start = Some m -> group_sound ic re m.
Proof.
  induction s as [|c s IH]; intros prev start m; cbn [search_from];
    destruct (match_here ic re prev _) as [[len g]|] eqn:E;
    try discriminate; eauto;
    intros H; inversion H; subst; clear H;
    unfold match_here in E; apply m_nodes_sound in E;
    destruct E as (p' & rest & g' & Hk & Hg); inversion Hk; subst; exact Hg.
Qed.

End Matcher.

Lemma search_sound (re : regex) (ic : bool) (s : str) (m : match_obj) :
  search re ic s = Some m -> group_sound ic re m.
Proof. apply search_from_sound. Qed.

(** *** What a match consumed *)

Section Consumed.

Variable ic : bool.

Lemma consumes_app (ats1 ats2 : list atom) :
  forall c1 c2,
    consumes ic ats1 c1 -> consumes ic ats2 c2 ->
    consumes ic (ats1 ++ ats2) (c1 ++ c2).
Proof.
  induction ats1 as [|a ats1 IH]; intros c1 c2 H1 H2; cbn [app consumes] in *.
  - subst c1; exact H2.
  - destruct a as [x|p lo hi| | |]; auto.
    + destruct H1 as (y & c' & -> & Hy & Hc).
      exists y, (c' ++ c2). repeat split; auto.
    + destruct H1 as (run & c' & -> & Hrun & Hlo & Hhi & Hc).
      exists run, (c' ++ c2). rewrite app_assoc. repeat split; auto.
Qed.

(** What the whole pattern consumed is a prefix of the subject. *)
Lemma m_nodes_consumes {R : Type} (ns : regex) :
  forall (prev : option ascii) (s : str) (g : option str)
         (k : option ascii -> str -> option str -> option R) (r : R),
    m_nodes ic ns prev s g k = Some r ->
    exists c rest prev' g',
      s = c ++ rest /\ consumes ic (atoms_of ns) c /\ k prev' rest g' = Some r.
Proof.
  induction ns as [|n ns IH]; intros prev s g k r; cbn [m_nodes].
  - intros H. exists [], s, prev, g. repeat split; auto.
  - assert (Step : forall ats g1 c rest prev',
               s = c ++ rest -> consumes ic ats c ->
               m_nodes ic ns prev' rest g1 k = Some r ->
               exists c0 rest0 prev0 g0,
                 s = c0 ++ rest0 /\ consumes ic (ats ++ atoms_of ns) c0
                 /\ k prev0 rest0 g0 = Some r).
    { intros ats g1 c rest prev' Hs Hc H.
      destruct (IH _ _ _ _ _ H) as (c2 & rest2 & p2 & g2 & Hs2 & Hc2 & Hk).
      exists (c ++ c2), rest2, p2, g2. repeat split; auto.
      - rewrite <- app_assoc, <- Hs2. exact Hs.
      - apply consumes_app; assumption. }
    destruct n as [a|body]; intros H; apply m_atoms_sound in H;
      destruct H as (c & rest & prev' & Hs & Hc & H).
    + exact (Step [a] g c rest prev' Hs Hc H).
    + exact (Step body _ c rest prev' Hs Hc H).
Qed.

Lemma search_from_consumes (re : regex) (s : str) :
  forall (prev : option ascii) (start : nat) (m : match_obj),
    search_from ic re prev s start = Some m ->
    exists a c b, s = a ++ c ++ b /\ consumes ic (atoms_of re) c.
Proof.
  induction s as [|x s IH]; intros prev start m; cbn [search_from];
    destruct (match_here ic re prev _) as [[len g]|] eqn:E; try discriminate.
  - intros _. unfold match_here in E. apply m_nodes_consumes in E.
    destruct E as (c & rest & _ & _ & Hs & Hc & _). exists [], c, rest. auto.
  - intros _. unfold match_here in E. apply m_nodes_consumes in E.
    destruct E as (c & rest & _ & _ & Hs & Hc & _). exists [], c, rest. auto.
  - intros H. destruct (IH _ _ _ H) as (a & c & b & -> & Hc).
    exists (x :: a), c, b. auto.
Qed.

End Consumed.

(** A match of a pattern is a piece of the subject that the atoms of
    the pattern consume. *)
Lemma search_consumes (re : regex) (ic : bool) (s : str) (m : match_obj) :
  search re ic s = Some m ->
  exists a c b, s = a ++ c ++ b /\ consumes ic (atoms_of re) c.
Proof. apply search_from_consumes. Qed.

(** Literals under [re.IGNORECASE] consume their own letters, up to case. *)
Lemma consumes_lits (k : str) (rest : list atom) (c : str) :
  consumes true (map Lit k ++ rest) c ->
  startswith (lower k) (lower c) = true.
Proof.
  revert c; induction k as [|x k IH]; intros c; [reflexivity|].
  cbn [map app consumes]. intros (a & c' & -> & Ha & Hc).
  cbn [lower map startswith]. fold (lower k) (lower c').
  unfold lit_ok in Ha. rewrite Ha. exact (IH c' Hc).
Qed.

(** When a case-blind pattern starts with a word, possibly after [\b], a
    subject it matches contains that word in some case. *)
Lemma search_needs_word (k : str) (rest : list atom) (re : regex)
    (s : str) (m : match_obj) :
  atoms_of re = map Lit k ++ rest \/ atoms_of re = WordB :: map Lit k ++ rest ->
  search re true s = Some m ->
  contains (lower k) (lower s) = true.
Proof.
  intros Hre H. apply search_consumes in H. destruct H as (a & c & b & -> & Hc).
  rewrite !lower_app. apply contains_app_l, contains_app_r.
  assert (Hs : startswith (lower k) (lower c) = true).
  { destruct Hre as [E|E]; rewrite E in Hc; [|cbn [consumes] in Hc];
      exact (consumes_lits k rest c Hc). }
  destruct (lower c); cbn [contains]; rewrite Hs; reflexivity.
Qed.

(** *** Classes that ignore the case flag *)





(** *** Removing the commas *)









End ReFacts.

(** ** The invoice script *)

Module InvoiceSpec.
Import PyStr PyStrFacts Re ReFacts Py Datetime World Invoice Samples.

(** ** Vendor normalization *)

Section Normalizer.

Variable table : list (str * str).

(** The loop over the table returns the value of the first entry whose
    key occurs in the lower-cased name. *)
Lemma normalize_first_entry (pre post : list (str * str)) (k v : str)
    (c : ascii) (name : str) :
  table = pre ++ (k, v) :: post ->
  Forall (fun kv => contains (fst kv) (lower (c :: name)) = false) pre ->
  contains k (lower (c :: name)) = true ->
  normalize_company_name_with table (Some (c :: name)) = Ok v.
Proof.
  intros -> Hpre Hk. unfold normalize_company_name_with.
  induction Hpre as [|kv pre Hkv _ IH]; cbn [app find fst].
  - rewrite Hk. reflexivity.
  - rewrite Hkv. exact IH.
Qed.

Lemma normalize_no_entry (c : ascii) (name : str) :
  Forall (fun kv => contains (fst kv) (lower (c :: name)) = false) table ->
  normalize_company_name_with table (Some (c :: name)) =
  match split (strip (c :: name)) with
  | w :: _ => Ok w
  | [] => Raise (IndexError (py "list index out of range"))
  end.
Proof.
  intros H. unfold normalize_company_name_with.
  rewrite (find_all_false _ table H). reflexivity.
Qed.

End Normalizer.

(** Every value of the table is the same short name. *)
Lemma table_values (low : str) (k short : str) :
  find (fun kv => contains (fst kv) low) COMPANY_NORMALIZATION = Some (k, short) ->
  short = py "Meriwether".
Proof.
  unfold COMPANY_NORMALIZATION; cbn [find fst].
  repeat match goal with
         | |- context [if ?b then _ else _] => destruct b
         end; intros H; inversion H; reflexivity.
Qed.

(** The fallback word, when there is one, is a piece of the name, is not
    empty and has no white space. *)
Lemma fallback_word (name w : str) (ws : list str) :
  split (strip name) = w :: ws ->
  w <> [] /\ no_space w /\ exists a b, name = a ++ w ++ b.
Proof.
  intros H. destruct (split_head _ _ _ H) as (Hne & Hns & a & b & Hs & _).
  destruct (strip_infix name) as (a' & b' & Hn).
  repeat split; auto.
  exists (a' ++ a), (b ++ b'). rewrite Hn at 1. rewrite Hs.
  rewrite <- !app_assoc. reflexivity.
Qed.

(** Claim C8.  Vendor normalization is idempotent: whatever short name
    [normalize_company_name] returns ("Unknown", a value of the table, or
    the first word of the name), normalizing that short name returns it
    unchanged. *)
Theorem C8_normalize_idempotent (name : option str) (r : str) :
  normalize_company_name name = Ok r ->
  normalize_company_name (Some r) = Ok r.
Proof.
  unfold normalize_company_name. intros H.
  destruct name as [[|c name]|]; cbn [normalize_company_name_with] in H.
  - inversion H; subst; vm_compute; reflexivity.
  - destruct (find _ COMPANY_NORMALIZATION) as [[k short]|] eqn:F.
    + inversion H; subst r.
      rewrite (table_values _ _ _ F). vm_compute; reflexivity.
    + destruct (split (strip (c :: name))) as [|w ws] eqn:S; [discriminate|].
      inversion H; subst r.
      destruct (fallback_word _ _ _ S) as (Hne & Hns & a & b & Hab).
      destruct w as [|x w]; [congruence|].
      rewrite normalize_no_entry.
      * rewrite (strip_no_space _ Hns), (split_no_space _ Hne Hns). reflexivity.
      * apply find_none_all in F.
        eapply Forall_impl; [|exact F]. cbn beta. intros kv Hkv.
        apply (not_contains_infix (fst kv) (lower a) (lower (x :: w)) (lower b)).
        rewrite <- !lower_app, <- Hab. exact Hkv.
  - inversion H; subst; vm_compute; reflexivity.
Qed.

Lemma C8_witness :
  normalize_company_name (Some (py "Acme Pest Control")) = Ok (py "Acme") /\
  normalize_company_name (Some (py "Acme")) = Ok (py "Acme").
Proof.
  split; [reflexivity|].
  apply (C8_normalize_idempotent (Some (py "Acme Pest Control"))). reflexivity.
Defined.

(** Claim C5.  Alias priority.  When two entries of the table have keys
    that both occur in the lower-cased vendor string, and no entry
    declared before the first of the two matches, normalization returns
    the value of the first-declared one, whatever the later entry maps
    to.  The witness below is the case of "Meriwether Pest & Wildlife
    Control" on the table of the script. *)
Theorem C5_first_declared_entry_wins
    (table pre mid post : list (str * str)) (k1 v1 k2 v2 : str) (name : str) :
  name <> [] ->
  table = pre ++ (k1, v1) :: mid ++ (k2, v2) :: post ->
  Forall (fun kv => contains (fst kv) (lower name) = false) pre ->
  contains k1 (lower name) = true ->
  contains k2 (lower name) = true ->
  normalize_company_name_with table (Some name) = Ok v1.
Proof.
  intros Hne Ht Hpre H1 _. destruct name as [|c name]; [congruence|].
  exact (normalize_first_entry table pre (mid ++ (k2, v2) :: post) k1 v1
           c name Ht Hpre H1).
Qed.

Lemma C5_witness :
  normalize_company_name (Some (py "Meriwether Pest & Wildlife Control"))
  = Ok (py "Meriwether")
  /\
  normalize_company_name_with
    [(py "meriwether pest", py "Meriwether Pest"); (py "meriwether", py "Meriwether")]
    (Some (py "Meriwether Pest & Wildlife Control"))
  = Ok (py "Meriwether Pest").
Proof.
  split.
  - apply (C5_first_declared_entry_wins COMPANY_NORMALIZATION []
             [(py "meriwether pest", py "Meriwether")] []
             (py "meriwether pest & wildlife") (py "Meriwether")
             (py "meriwether") (py "Meriwether")
             (py "Meriwether Pest & Wildlife Control")).
    + discriminate.
    + reflexivity.
    + constructor.
    + vm_compute; reflexivity.
    + vm_compute; reflexivity.
  - apply (C5_first_declared_entry_wins
             [(py "meriwether pest", py "Meriwether Pest");
              (py "meriwether", py "Meriwether")]
             [] [] []
             (py "meriwether pest") (py "Meriwether Pest")
             (py "meriwether") (py "Meriwether")
             (py "Meriwether Pest & Wildlife Control")).
    + discriminate.
    + reflexivity.
    + constructor.
    + vm_compute; reflexivity.
    + vm_compute; reflexivity.
Defined.

(** With the two entries the other way round the short pattern wins. *)
Example overlapping_entries :
  normalize_company_name_with
    [(py "meriwether", py "Meriwether"); (py "meriwether pest", py "Meriwether Pest")]
    (Some (py "Meriwether Pest & Wildlife Control")) = Ok (py "Meriwether").
Proof. vm_compute; reflexivity. Qed.

(** *** Where the fallback has no first word *)

Lemma lstrip_blank (s : str) : blank s -> lstrip s = [].
Proof. induction 1 as [|c s Hc _ IH]; simpl; [|rewrite Hc]; auto. Qed.

Lemma contains_head_in (a : ascii) (p s : str) :
  contains (a :: p) s = true -> In a s.
Proof.
  induction s as [|c s IH]; [discriminate|].
  cbn [contains startswith]. rewrite orb_true_iff, andb_true_iff, ascii_eqb_eq.
  intros [[-> _]|H]; [left; reflexivity | right; auto].
Qed.

Lemma blank_no_key (name : str) :
  blank name ->
  Forall (fun kv => contains (fst kv) (lower name) = false) COMPANY_NORMALIZATION.
Proof.
  intros Hb.
  assert (Hm : ~ In "m"%char (lower name)).
  { unfold lower; rewrite in_map_iff. intros (c & Hc & Hin).
    unfold blank in Hb; rewrite Forall_forall in Hb. specialize (Hb c Hin).
    rewrite <- is_space_to_lower, Hc in Hb. discriminate Hb. }
  repeat constructor; cbn [fst];
    match goal with
    | |- contains ?k ?s = false =>
        destruct (contains k s) eqn:E; [|reflexivity];
        exfalso; apply Hm; exact (contains_head_in _ _ _ E)
    end.
Qed.

(** A name that is not empty and is all white space passes the test
    [if not name], matches no key, and has no first word. *)
Lemma normalize_blank_raises (name : str) :
  name <> [] -> blank name ->
  normalize_company_name (Some name)
  = Raise (IndexError (py "list index out of range")).
Proof.
  intros Hne Hb. destruct name as [|c name]; [congruence|].
  unfold normalize_company_name. rewrite normalize_no_entry by (apply blank_no_key, Hb).
  unfold strip. rewrite (lstrip_blank _ Hb). reflexivity.
Qed.

(** A name with a character that is not white space at its head always
    has a first word: on the lines of a document the normalizer returns. *)
Lemma normalize_returns (c : ascii) (name : str) :
  is_space c = false ->
  exists short, normalize_company_name (Some (c :: name)) = Ok short.
Proof.
  intros Hc. unfold normalize_company_name, normalize_company_name_with.
  destruct (find _ COMPANY_NORMALIZATION) as [[k short]|]; [eauto|].
  destruct (strip_head_fixed c name Hc) as [r ->].
  destruct (split (c :: r)) as [|w ws] eqn:E; [|eauto].
  exfalso; exact (split_head_nonempty c r Hc E).
Qed.


(** ** The company name above the INVOICE line *)

Lemma first_index_app {A : Type} (f : A -> bool) (pre post : list A) (a : A) :
  Forall (fun x => f x = false) pre -> f a = true ->
  first_index f (pre ++ a :: post) = Some (length pre).
Proof.
  intros Hpre Ha; induction Hpre as [|x pre Hx _ IH]; cbn [app first_index length].
  - rewrite Ha; reflexivity.
  - rewrite Hx, IH; reflexivity.
Qed.

Lemma metadata_not_anchor (line : str) :
  is_metadata_label line = true -> is_anchor line = false.
Proof.
  unfold is_metadata_label, is_anchor, startswith_any, METADATA_PREFIXES.
  destruct (upper line) as [|x u]; [reflexivity|].
  destruct x as [[] [] [] [] [] [] [] []]; cbn; try reflexivity; discriminate.
Qed.

Lemma metadata_not_business_name (line : str) :
  is_metadata_label line = true -> is_business_name (strip line) = false.
Proof.
  unfold is_metadata_label, is_business_name, startswith_any. intros H.
  apply existsb_exists in H. destruct H as (p & Hin & Hp).
  assert (Hs : startswith p (upper (strip line)) = true).
  { apply strip_keeps_prefix; auto;
      unfold METADATA_PREFIXES in Hin; cbn in Hin;
      repeat (destruct Hin as [<-|Hin]; [reflexivity|]); destruct Hin. }
  assert (E : existsb (fun p => startswith p (upper (strip line))) METADATA_PREFIXES = true).
  { apply existsb_exists; eauto. }
  rewrite E. apply andb_false_r.
Qed.

(** Claim C10.  When the first line that starts with INVOICE (in upper
    case) is the first line of the document, or has only lines above it
    that start with ACCOUNT #, PO # or DATE, the walk upwards finds no
    business name and the vendor extractor falls back to the first line
    of the document: it returns [Some first], be [first] the anchor line
    ([pre = []]) or a metadata label. *)
Theorem C10_anchor_without_vendor_above
    (pre post : list str) (anchor : str) :
  is_anchor anchor = true ->
  Forall (fun line => is_metadata_label line = true) pre ->
  exists first,
    hd_error (pre ++ anchor :: post) = Some first /\
    find_company_name (pre ++ anchor :: post) = Some first.
Proof.
  intros Ha Hpre.
  assert (Hidx : first_index is_anchor (pre ++ anchor :: post) = Some (length pre)).
  { apply first_index_app; [|exact Ha].
    eapply Forall_impl; [|exact Hpre]. exact metadata_not_anchor. }
  assert (Hnone : find is_business_name (map strip (rev pre)) = None).
  { apply find_all_false. apply Forall_map, Forall_rev.
    eapply Forall_impl; [|exact Hpre]. exact metadata_not_business_name. }
  unfold find_company_name. rewrite Hidx.
  rewrite firstn_app, firstn_all, Nat.sub_diag, firstn_O, app_nil_r, Hnone.
  destruct pre as [|l pre]; cbn; eauto.
Qed.

Lemma C10_witness :
  exists first,
    hd_error ([py "ACCOUNT # 7731"; py "Date 09/22/2025"] ++ py "INVOICE #52359" :: [py "Subtotal $184.50"])
      = Some first /\
    find_company_name ([py "ACCOUNT # 7731"; py "Date 09/22/2025"] ++ py "INVOICE #52359" :: [py "Subtotal $184.50"])
      = Some first.
Proof.
  apply (C10_anchor_without_vendor_above
           [py "ACCOUNT # 7731"; py "Date 09/22/2025"] [py "Subtotal $184.50"]
           (py "INVOICE #52359")).
  - vm_compute; reflexivity.
  - repeat constructor.
Defined.

(** ** The lines of a document *)

Lemma text_lines_unspaced (text : str) :
  Forall starts_unspaced (text_lines text).
Proof.
  unfold text_lines. apply Forall_map, Forall_forall. intros ln Hin.
  apply filter_In in Hin. destruct Hin as [_ Hne].
  destruct (strip ln) as [|c r] eqn:E; [discriminate Hne|].
  exists c, r. split; [reflexivity | exact (strip_head ln c r E)].
Qed.

(** Whatever [find_company_name] returns on such lines starts with a
    character that is not white space. *)
Lemma find_company_name_unspaced (lines : list str) (name : str) :
  Forall starts_unspaced lines ->
  find_company_name lines = Some name -> starts_unspaced name.
Proof.
  intros Hl. unfold find_company_name.
  destruct (first_index is_anchor lines) as [i|].
  - destruct (find is_business_name (map strip (rev (firstn i lines)))) as [[|c r]|] eqn:F.
    + apply find_some in F. destruct F as [_ F]. discriminate F.
    + intros H; inversion H; subst name.
      apply find_some in F. destruct F as [Hin _].
      apply in_map_iff in Hin. destruct Hin as (l & Hs & _).
      exists c, r. split; [reflexivity | exact (strip_head l c r Hs)].
    + destruct Hl as [|l lines Hl0 _]; [discriminate|].
      intros H; inversion H; subst; exact Hl0.
  - destruct Hl as [|l lines Hl0 _]; [discriminate|].
    intros H; inversion H; subst; exact Hl0.
Qed.

(** On the company name of a document the normalizer never raises. *)
Lemma normalize_document_company (text : str) :
  exists short,
    normalize_company_name (find_company_name (text_lines text)) = Ok short.
Proof.
  destruct (find_company_name (text_lines text)) as [name|] eqn:E.
  - destruct (find_company_name_unspaced _ _ (text_lines_unspaced text) E)
      as (c & r & -> & Hc).
    exact (normalize_returns c r Hc).
  - exists (py "Unknown"); reflexivity.
Qed.

(** ** Loops that stop at the first hit *)

Lemma first_some_app {A B : Type} (f : A -> option B)
    (pre post : list A) (x : A) :
  Forall (fun y => f y = None) pre ->
  first_some f (pre ++ x :: post) =
  match f x with
  | Some b => Some b
  | None => first_some f post
  end.
Proof.
  induction 1 as [|y pre Hy _ IH]; cbn [app first_some]; [reflexivity|].
  rewrite Hy. exact IH.
Qed.

Lemma first_some_none {A B : Type} (f : A -> option B) (l : list A) :
  Forall (fun y => f y = None) l -> first_some f l = None.
Proof. induction 1 as [|y l Hy _ IH]; cbn; [|rewrite Hy]; auto. Qed.

Lemma first_some_in {A B : Type} (f : A -> option B) (l : list A) (b : B) :
  first_some f l = Some b -> exists x, In x l /\ f x = Some b.
Proof.
  induction l as [|x l IH]; cbn; [discriminate|].
  destruct (f x) eqn:E.
  - intros H; inversion H; subst. exists x; auto.
  - intros H. destruct (IH H) as (y & Hy & Hf). exists y; auto.
Qed.

(** ** Lines the patterns cannot match *)

Lemma subtotal_needs_word (line : str) (m : match_obj) :
  search SUBTOTAL_RE true line = Some m ->
  contains (py "subtotal") (lower line) = true.
Proof.
  apply (search_needs_word (py "Subtotal")
           ([plus is_space; opt (chr "$")] ++ AMOUNT_BODY)).
  left; reflexivity.
Qed.

Lemma labeled_date_needs_word (line : str) (m : match_obj) :
  search DATE_RE true line = Some m ->
  contains (py "date") (lower line) = true.
Proof.
  apply (search_needs_word (py "DATE")
           [plus is_space; rep is_digit 1 2; Lit "/"; rep is_digit 1 2; Lit "/";
            rep is_digit 4 4]).
  right; reflexivity.
Qed.

(** A document in which the word "subtotal" occurs in no case has no
    line for the amount. *)
Lemma no_subtotal_word (lines : list str) :
  Forall (fun line => contains (py "subtotal") (lower line) = false) lines ->
  Forall (fun line => search SUBTOTAL_RE true line = None) lines.
Proof.
  apply Forall_impl. intros line H.
  destruct (search SUBTOTAL_RE true line) as [m|] eqn:E; [|reflexivity].
  rewrite (subtotal_needs_word line m E) in H. discriminate.
Qed.

(** ** The run of [process_invoice] *)

(** When extraction raises, nothing else happens. *)
Lemma process_invoice_raises (w : world) (pdf_path : str) (rename : bool) (e : exn) :
  extract_invoice_fields w pdf_path = Raise e ->
  process_invoice w pdf_path rename = ([], Raise e).
Proof. intros H. unfold process_invoice. rewrite H. reflexivity. Qed.

(** When extraction returns, the run goes to its end. *)
Lemma process_invoice_returns (w : world) (pdf_path : str) (rename : bool) (f : fields) :
  extract_invoice_fields w pdf_path = Ok f ->
  exists name, snd (process_invoice w pdf_path rename) = Ok name.
Proof.
  intros H. unfold process_invoice. rewrite H. unfold lift. cbn [io_bind].
  assert (Hc : company_name f = find_company_name (text_lines (document_text w pdf_path))).
  { unfold extract_invoice_fields, extract_fields_of_text in H.
    destruct (find_service_date w _) as [[d|]|]; cbn in H; inversion H; reflexivity. }
  destruct (normalize_document_company (document_text w pdf_path)) as [short Hs].
  rewrite Hc, Hs. cbn [io_bind app]. destruct rename; cbn; eauto.
Qed.

(** The date block of [extract_invoice_fields] decides whether it raises. *)
Lemma extract_invoice_fields_dated (w : world) (pdf_path : str) (d : datetime) :
  let text := document_text w pdf_path in
  let lines := text_lines text in
  find_service_date w lines = Ok (Some d) ->
  extract_invoice_fields w pdf_path =
  Ok (Fields (find_company_name lines) d (find_invoice_number lines)
             (find_amount lines) text).
Proof.
  cbn zeta. intros H. unfold extract_invoice_fields, extract_fields_of_text.
  rewrite H. reflexivity.
Qed.

Lemma extract_invoice_fields_undated (w : world) (pdf_path : str) :
  (forall d, find_service_date w (text_lines (document_text w pdf_path)) <> Ok (Some d)) ->
  exists msg, extract_invoice_fields w pdf_path = Raise (ValueError msg).
Proof.
  intros H. unfold extract_invoice_fields, extract_fields_of_text.
  destruct (find_service_date w _) as [[d|]|e] eqn:E; cbn.
  - exfalso; exact (H d eq_refl).
  - eauto.
  - (* only [strptime] raises in the date block *)
    unfold find_service_date, service_date_fallback in E.
    destruct (service_date_lookahead w _); [discriminate|].
    destruct (first_some _ _); [|discriminate].
    unfold strptime_mdY in E.
    repeat match type of E with
           | context [let (_, _) := ?x in _] => destruct x
           | context [match ?x with _ => _ end] => destruct x
           end; cbn in E; inversion E; eauto.
Qed.

(** ** Labeled date and subtotal *)

(** Claim C1, as the code has it.  Take an invoice on which the service
    date block gives no date ([service_date_lookahead] is [None]).  If
    [line_d] is the first line the pattern DATE + MM/DD/YYYY matches and
    its date exists in the calendar, and [line_s] is the first line the
    Subtotal pattern matches, then [extract_invoice_fields] returns a
    record whose service date is the strict parse of the date of
    [line_d] and whose amount is the number of [line_s] as written,
    whatever the other lines are. *)
Theorem C1_first_labeled_date_and_first_subtotal
    (w : world) (pdf_path : str)
    (pre_d post_d pre_s post_s : list str) (line_d line_s : str)
    (md ms : match_obj) (d : datetime) :
  let lines := text_lines (document_text w pdf_path) in
  service_date_lookahead w lines = None ->
  lines = pre_d ++ line_d :: post_d ->
  Forall (fun l => search DATE_RE true l = None) pre_d ->
  search DATE_RE true line_d = Some md ->
  strptime_mdY (group1 md) = Ok d ->
  lines = pre_s ++ line_s :: post_s ->
  Forall (fun l => search SUBTOTAL_RE true l = None) pre_s ->
  search SUBTOTAL_RE true line_s = Some ms ->
  exists f,
    extract_invoice_fields w pdf_path = Ok f /\
    service_date f = d /\
    amount f = Some (group1 ms).
Proof.
  cbn zeta. intros Hlook Hd Hpre_d Hmd Hparse Hs Hpre_s Hms.
  assert (Hdate : find_service_date w (text_lines (document_text w pdf_path))
                  = Ok (Some d)).
  { unfold find_service_date, service_date_fallback. rewrite Hlook.
    rewrite Hd at 1. rewrite (first_some_app _ pre_d post_d line_d Hpre_d), Hmd.
    rewrite Hparse. reflexivity. }
  rewrite (extract_invoice_fields_dated w pdf_path d Hdate).
  eexists; split; [reflexivity|]. cbn [service_date amount]. split; [reflexivity|].
  unfold find_amount. rewrite Hs at 1.
  rewrite (first_some_app _ pre_s post_s line_s Hpre_s), Hms. reflexivity.
Qed.

Lemma C1_witness :
  exists f,
    extract_invoice_fields invoice_labeled (py "/in/scan.pdf") = Ok f /\
    service_date f = Date 2025 9 22 /\
    amount f = Some (py "184.50").
Proof.
  apply (C1_first_labeled_date_and_first_subtotal
           invoice_labeled (py "/in/scan.pdf")
           [py "Meriwether Pest & Wildlife Control"; py "INVOICE #52359"]
           [py "Technician J. Alvarez, route 12"; py "Subtotal $184.50";
            py "Thank you for your business"]
           [py "Meriwether Pest & Wildlife Control"; py "INVOICE #52359";
            py "DATE 09/22/2025"; py "Technician J. Alvarez, route 12"]
           [py "Thank you for your business"]
           (py "DATE 09/22/2025") (py "Subtotal $184.50")
           (MatchObj 0 15 (Some (py "09/22/2025")))
           (MatchObj 0 16 (Some (py "184.50")))
           (Date 2025 9 22)).
  - vm_compute; reflexivity.
  - vm_compute; reflexivity.
  - repeat constructor.
  - vm_compute; reflexivity.
  - vm_compute; reflexivity.
  - vm_compute; reflexivity.
  - repeat constructor.
  - vm_compute; reflexivity.
Defined.

(** Claim C1 as stated fails twice.  On the first invoice the line
    "DATE 10/01/2025" carries a labeled date and yet the service date is
    the one of the service date block, 2025-09-22.  On the second the
    lines "DATE 09/22/2025" and "Subtotal $184.50" are there and yet the
    record has the date and the amount of the lines about the previous
    visit, which come first. *)
Lemma C1_counterexample :
  (* the service date block wins over the labeled date *)
  (In (py "DATE 10/01/2025")
      (text_lines (document_text invoice_two_kinds_of_date (py "/in/a.pdf"))) /\
   option_map group1 (search DATE_RE true (py "DATE 10/01/2025"))
     = Some (py "10/01/2025") /\
   strptime_mdY (py "10/01/2025") = Ok (Date 2025 10 1) /\
   In (py "Subtotal $184.50")
      (text_lines (document_text invoice_two_kinds_of_date (py "/in/a.pdf"))) /\
   exists f,
     extract_invoice_fields invoice_two_kinds_of_date (py "/in/a.pdf") = Ok f /\
     service_date f = Date 2025 9 22 /\
     service_date f <> Date 2025 10 1)
  /\
  (* an earlier line with a labeled date and a subtotal wins *)
  (In (py "DATE 09/22/2025")
      (text_lines (document_text invoice_with_history (py "/in/b.pdf"))) /\
   option_map group1 (search DATE_RE true (py "DATE 09/22/2025"))
     = Some (py "09/22/2025") /\
   strptime_mdY (py "09/22/2025") = Ok (Date 2025 9 22) /\
   In (py "Subtotal $184.50")
      (text_lines (document_text invoice_with_history (py "/in/b.pdf"))) /\
   option_map group1 (search SUBTOTAL_RE true (py "Subtotal $184.50"))
     = Some (py "184.50") /\
   exists f,
     extract_invoice_fields invoice_with_history (py "/in/b.pdf") = Ok f /\
     service_date f = Date 2025 8 1 /\
     amount f = Some (py "20.00")).
Proof.
  split.
  - split; [vm_compute; tauto|].
    split; [vm_compute; reflexivity|].
    split; [vm_compute; reflexivity|].
    split; [vm_compute; tauto|].
    eexists. split; [vm_compute; reflexivity|].
    split; [reflexivity | discriminate].
  - split; [vm_compute; tauto|].
    split; [vm_compute; reflexivity|].
    split; [vm_compute; reflexivity|].
    split; [vm_compute; tauto|].
    split; [vm_compute; reflexivity|].
    eexists. split; [vm_compute; reflexivity|].
    split; reflexivity.
Qed.

End InvoiceSpec.

(** ** The receipt script *)

Module ReceiptSpec.
Import PyStr PyStrFacts Re ReFacts Py Datetime World Receipt Samples.

(** ** Vendor resolution *)

(** When the text layer names no known vendor and none of its first
    ten lines qualifies, the text strategy answers "Northwest"; this is
    not "Unknown", so [extract_company] returns it without looking at
    the logo. *)
Lemma extract_company_default (w : world) (text pdf_path : str) :
  known_vendor text = None ->
  first_some top_band_candidate (firstn 10 (text_lines text)) = None ->
  extract_company w text pdf_path = py "Northwest".
Proof.
  intros Hk Ht. unfold extract_company, extract_company_from_text.
  rewrite Hk, Ht. reflexivity.
Qed.

(** Claim C4.  On a receipt whose text names no known vendor and has no
    qualifying line among its first ten, and whose logo reads
    "Northwest Exterminating Pest Control", the OCR strategy alone would
    answer "Northwest Exterminating", but [extract_company] returns
    "Northwest" and the file name component is "Northwest": the text
    strategy ends with [return "Northwest"], never with "Unknown", so
    the OCR fallback is not reached. *)
Theorem C4_logo_is_not_consulted :
  let w := receipt_with_logo in
  let pdf_path := py "/in/receipt.pdf" in
  let text := extract_text_with_pdfplumber w pdf_path in
  known_vendor text = None /\
  first_some top_band_candidate (firstn 10 (text_lines text)) = None /\
  extract_company_from_logo_ocr w pdf_path = py "Northwest Exterminating" /\
  extract_company w text pdf_path = py "Northwest" /\
  sanitize_company (extract_company w text pdf_path) = py "Northwest".
Proof. cbn zeta. repeat split; vm_compute; reflexivity. Qed.

(** ** Amount and date *)


Lemma first_match_none (pats : list regex) (text : str) :
  Forall (fun pat => search pat true text = None) pats ->
  first_match pats text = None.
Proof. induction 1 as [|pat pats Hp _ IH]; cbn; [|rewrite Hp]; auto. Qed.


(** A text in which neither "amount" nor "total" occurs, in any case,
    matches none of the amount patterns. *)
Lemma no_amount_word (text : str) :
  contains (py "amount") (lower text) = false ->
  contains (py "total") (lower text) = false ->
  Forall (fun pat => search pat true text = None) AMOUNT_PATTERNS.
Proof.
  intros Ha Ht.
  assert (Hpa : contains (py "payment amount") (lower text) = false).
  { destruct (contains (py "payment amount") (lower text)) eqn:E; [|reflexivity].
    assert (H : contains (py "amount") (lower text) = true); [|congruence].
    clear - E. induction (lower text) as [|c t IH]; [discriminate|].
    cbn [contains] in E. apply orb_true_iff in E. destruct E as [E|E].
    - apply startswith_iff in E. destruct E as [u ->].
      apply (contains_infix (py "amount") (py "payment ") (py "amount") u).
      reflexivity.
    - apply contains_cons, IH, E. }
  unfold AMOUNT_PATTERNS. repeat constructor;
    match goal with
    | |- search ?re true text = None =>
        destruct (search re true text) as [m|] eqn:E; [exfalso|reflexivity]
    end.
  - assert (H := search_needs_word (py "PAYMENT AMOUNT")
                   ([star is_space; opt (chr "$")] ++ AMOUNT_BODY)
                   (seq (lits "PAYMENT AMOUNT") ++ AMOUNT_TAIL) text m
                   (or_introl eq_refl) E).
    change (lower (py "PAYMENT AMOUNT")) with (py "payment amount") in H. congruence.
  - assert (H := search_needs_word (py "AMOUNT")
                   ([star is_space; opt (chr "$")] ++ AMOUNT_BODY)
                   (seq (lits "AMOUNT") ++ AMOUNT_TAIL) text m
                   (or_introl eq_refl) E).
    change (lower (py "AMOUNT")) with (py "amount") in H. congruence.
  - assert (H := search_needs_word (py "TOTAL")
                   ([star is_space; opt (chr "$")] ++ AMOUNT_BODY)
                   (seq (lits "TOTAL") ++ AMOUNT_TAIL) text m
                   (or_introl eq_refl) E).
    change (lower (py "TOTAL")) with (py "total") in H. congruence.
Qed.


(** ** The run of [main] *)

Lemma main_without_date (w : world) (arg : str) :
  (forall iso, extract_date (document_text w (abspath w arg)) <> Ok iso) ->
  exists e, main w arg = ([], Raise e).
Proof.
  intros H. unfold main, extract_text_with_pdfplumber.
  destruct (isfile w (abspath w arg)); cbn [negb]; [|unfold lift; eauto].
  destruct (extract_amount _) as [a|e]; cbn; [|eauto].
  destruct (extract_date _) as [iso|e] eqn:E; cbn; [|eauto].
  exfalso; exact (H iso eq_refl).
Qed.

Lemma main_without_amount (w : world) (arg : str) :
  Forall (fun pat => search pat true (document_text w (abspath w arg)) = None)
         AMOUNT_PATTERNS ->
  exists e, main w arg = ([], Raise e).
Proof.
  intros H. unfold main, extract_text_with_pdfplumber, extract_amount.
  rewrite (first_match_none _ _ H).
  destruct (isfile w (abspath w arg)); cbn; unfold lift; eauto.
Qed.

End ReceiptSpec.

(** ** Paths *)

Module OsPathFacts.
Import PyStr PyStrFacts OsPath.

(** [splitext] cuts its argument in two. *)
Lemma splitext_app (p : str) : fst (splitext p) ++ snd (splitext p) = p.
Proof.
  unfold splitext.
  destruct (rfind_succ "/" p <? rfind_succ "." p); [|apply app_nil_r].
  destruct (existsb _ _); [apply firstn_skipn | apply app_nil_r].
Qed.

(** [basename] keeps the end of the path. *)
Lemma basename_suffix (p : str) : exists dir, p = dir ++ basename p.
Proof.
  exists (firstn (rfind_succ "/" p) p). symmetry; apply firstn_skipn.
Qed.

Lemma split_snd_basename (p : str) : snd (split p) = basename p.
Proof. unfold split, basename. destruct (forallb _ _); reflexivity. Qed.

(** The extension [splitext] finds in the last component is the end of
    the path itself. *)
Lemma extension_verbatim (p : str) :
  exists root, p = root ++ snd (splitext (basename p)).
Proof.
  destruct (basename_suffix p) as [dir Hd].
  exists (dir ++ fst (splitext (basename p))).
  rewrite <- app_assoc, splitext_app. exact Hd.
Qed.

End OsPathFacts.

(** ** Both families *)

Module FamiliesSpec.
Import PyStr PyStrFacts Re ReFacts Py Datetime World Samples.
Import OsPathFacts InvoiceSpec ReceiptSpec.

(** Claim C2.  In either family, when the date chain gives no date the
    run ends with an exception and has performed no event: no rename (and
    no output) happens, no date is made up, nothing is tried again.  For
    an invoice the chain is [find_service_date] (service date block, then
    labeled date); for a receipt it is [extract_date] (labeled date, then
    bare date). *)
Theorem C2_no_date_is_terminal (w : world) (pdf_path : str) :
  (forall rename,
     (forall d, Invoice.find_service_date w
                  (text_lines (document_text w pdf_path)) <> Ok (Some d)) ->
     exists msg,
       Invoice.process_invoice w pdf_path rename = ([], Raise (ValueError msg)))
  /\
  ((forall iso, Receipt.extract_date
                  (document_text w (abspath w pdf_path)) <> Ok iso) ->
   exists e, Receipt.main w pdf_path = ([], Raise e)).
Proof.
  split.
  - intros rename H.
    destruct (extract_invoice_fields_undated w pdf_path H) as [msg E].
    exists msg. exact (process_invoice_raises w pdf_path rename _ E).
  - exact (main_without_date w pdf_path).
Qed.

Lemma C2_witness :
  (exists msg, Invoice.process_invoice invoice_without_date_or_subtotal
                 (py "/in/scan.pdf") true = ([], Raise (ValueError msg)))
  /\
  (exists e, Receipt.main receipt_without_date (py "/in/receipt.pdf")
             = ([], Raise e)).
Proof.
  split.
  - apply (proj1 (C2_no_date_is_terminal invoice_without_date_or_subtotal
                    (py "/in/scan.pdf")) true).
    intros d; vm_compute; discriminate.
  - apply (proj2 (C2_no_date_is_terminal receipt_without_date
                    (py "/in/receipt.pdf"))).
    intros iso; vm_compute; discriminate.
Defined.

(** Claim C3, as the code has it.  On a receipt text that none of the
    three amount patterns matches, [extract_amount] raises [ValueError],
    and [main] ends there, before it renames anything.  On an invoice
    without a line the Subtotal pattern matches, and whose service date
    is found, extraction returns a record whose amount is [None] and
    [process_invoice] runs to its end. *)
Theorem C3_missing_amount (w : world) (pdf_path : str) (text : str) :
  (Forall (fun pat => search pat true text = None) Receipt.AMOUNT_PATTERNS ->
   Receipt.extract_amount text
   = Raise (ValueError (py "Could not find payment amount in receipt text.")))
  /\
  (Forall (fun pat => search pat true (document_text w (abspath w pdf_path)) = None)
          Receipt.AMOUNT_PATTERNS ->
   exists e, Receipt.main w pdf_path = ([], Raise e))
  /\
  (forall rename d,
     let lines := text_lines (document_text w pdf_path) in
     Forall (fun line => search Invoice.SUBTOTAL_RE true line = None) lines ->
     Invoice.find_service_date w lines = Ok (Some d) ->
     exists f name,
       Invoice.extract_invoice_fields w pdf_path = Ok f /\
       Invoice.amount f = None /\
       snd (Invoice.process_invoice w pdf_path rename) = Ok name).
Proof.
  split; [|split].
  - intros H. unfold Receipt.extract_amount.
    rewrite (first_match_none _ _ H). reflexivity.
  - exact (main_without_amount w pdf_path).
  - cbn zeta. intros rename d Hsub Hdate.
    pose proof (extract_invoice_fields_dated w pdf_path d Hdate) as E.
    destruct (process_invoice_returns w pdf_path rename _ E) as [name Hn].
    eexists; exists name. split; [exact E|]. split; [|exact Hn].
    cbn [Invoice.amount]. unfold Invoice.find_amount.
    rewrite (first_some_none _ _ Hsub). reflexivity.
Qed.

Lemma C3_witness :
  Receipt.extract_amount (py "no amount text")
  = Raise (ValueError (py "Could not find payment amount in receipt text."))
  /\
  (exists e, Receipt.main receipt_without_amount (py "/in/receipt.pdf")
             = ([], Raise e))
  /\
  exists f name,
    Invoice.extract_invoice_fields invoice_without_subtotal (py "/in/scan.pdf") = Ok f /\
    Invoice.amount f = None /\
    snd (Invoice.process_invoice invoice_without_subtotal (py "/in/scan.pdf") true)
    = Ok name.
Proof.
  split; [|split].
  - apply (proj1 (C3_missing_amount invoice_without_subtotal (py "/in/scan.pdf")
                    (py "no amount text"))).
    repeat constructor.
  - apply (proj1 (proj2 (C3_missing_amount receipt_without_amount
                           (py "/in/receipt.pdf") (py "no amount text")))).
    repeat constructor.
  - apply (proj2 (proj2 (C3_missing_amount invoice_without_subtotal
                           (py "/in/scan.pdf") (py "no amount text")))
             true (Date 2025 9 22)).
    + repeat constructor.
    + vm_compute; reflexivity.
Defined.

(** Claim C3 as stated fails on an invoice that has neither a Subtotal
    line nor a date: the run raises, for the sake of the date. *)
Lemma C3_counterexample :
  let w := invoice_without_date_or_subtotal in
  let pdf_path := py "/in/scan.pdf" in
  Forall (fun line => search Invoice.SUBTOTAL_RE true line = None)
         (text_lines (document_text w pdf_path)) /\
  Invoice.extract_invoice_fields w pdf_path
  = Raise (ValueError (py "Could not find service date")) /\
  Invoice.process_invoice w pdf_path true
  = ([], Raise (ValueError (py "Could not find service date"))).
Proof. cbn zeta. split; [repeat constructor | split; vm_compute; reflexivity]. Qed.




(** Claim C7, as the code has it.  The extension is the end of the
    source path, verbatim.  The invoice file name is the date, the
    company and the identifier segment followed by that extension, and by
    nothing when the path has none.  The receipt file name ends with that
    extension when there is one and with ".pdf" when there is none. *)
Theorem C7_extension_kept
    (path : str) (service_date : datetime) (short_company invoice_number : str)
    (date_iso company_for_file : str) :
  let ext := snd (OsPath.splitext (OsPath.basename path)) in
  (exists root, path = root ++ ext) /\
  Invoice.build_new_filename path service_date short_company invoice_number
  = strftime_Ymd service_date ++ py "-"
    ++ Invoice.sanitize_for_filename short_company ++ py "-"
    ++ match invoice_number with
       | _ :: _ => py "Invoice #" ++ invoice_number
       | [] => fst (OsPath.splitext (OsPath.basename path))
       end
    ++ ext /\
  (ext <> [] ->
   Receipt.new_file_name path date_iso company_for_file
   = date_iso ++ py "-" ++ company_for_file ++ ext) /\
  (ext = [] ->
   Receipt.new_file_name path date_iso company_for_file
   = date_iso ++ py "-" ++ company_for_file ++ py ".pdf").
Proof.
  cbn zeta. split; [apply extension_verbatim|]. split.
  - unfold Invoice.build_new_filename.
    destruct (OsPath.splitext (OsPath.basename path)) as [base ext]. reflexivity.
  - unfold Receipt.new_file_name.
    pose proof (split_snd_basename path) as Hb.
    destruct (OsPath.split path) as [dirpath old_name]. cbn [snd] in Hb. subst old_name.
    destruct (OsPath.splitext (OsPath.basename path)) as [base ext]. cbn [snd].
    split; intros H; destruct ext; congruence.
Qed.

Lemma C7_witness :
  Invoice.build_new_filename (py "/in/scan.PDF") (Date 2025 9 22)
    (py "Meriwether") (py "52359")
  = py "2025-09-22-Meriwether-Invoice #52359.PDF"
  /\
  Receipt.new_file_name (py "/in/receipt.PDF") (py "2025-09-22") (py "Northwest")
  = py "2025-09-22-Northwest.PDF"
  /\
  Receipt.new_file_name (py "/in/receipt") (py "2025-09-22") (py "Northwest")
  = py "2025-09-22-Northwest.pdf".
Proof.
  split; [|split].
  - exact (proj1 (proj2 (C7_extension_kept (py "/in/scan.PDF")
             (Date 2025 9 22) (py "Meriwether") (py "52359") [] []))).
  - apply (proj1 (proj2 (proj2 (C7_extension_kept (py "/in/receipt.PDF")
             (Date 2025 9 22) (py "Northwest") [] (py "2025-09-22") (py "Northwest"))))).
    vm_compute; discriminate.
  - apply (proj2 (proj2 (proj2 (C7_extension_kept (py "/in/receipt")
             (Date 2025 9 22) (py "Northwest") [] (py "2025-09-22") (py "Northwest"))))).
    vm_compute; reflexivity.
Defined.

(** Claim C7 as stated fails on the invoice family: for the path
    "/in/scan", which has no extension, the new name has none either. *)
Lemma C7_counterexample :
  snd (OsPath.splitext (OsPath.basename (py "/in/scan"))) = [] /\
  Invoice.build_new_filename (py "/in/scan") (Date 2025 9 22)
    (py "Meriwether") (py "52359")
  = py "2025-09-22-Meriwether-Invoice #52359" /\
  snd (OsPath.splitext (py "2025-09-22-Meriwether-Invoice #52359")) = [] /\
  Invoice.process_invoice invoice_labeled (py "/in/scan") false
  = ([Print (py "Would rename to: 2025-09-22-Meriwether-Invoice #52359")],
     Ok (py "2025-09-22-Meriwether-Invoice #52359")).
Proof. repeat split; vm_compute; reflexivity. Qed.

End FamiliesSpec.

(** * Further properties *)

(** ** Substitution *)

Module SubFacts.
Import PyStr PyStrFacts Re ReFacts.

(** A pattern made of one class repeated at least once matches, at a
    given position, the whole run of characters of the class there. *)
Lemma match_here_plus (p : ascii -> bool) (prev : option ascii) (s : str) :
  match_here false (seq [plus p]) prev s =
  match span false p None s with
  | 0 => None
  | S n => Some (S n, None)
  end.
Proof.
  unfold match_here, seq, plus. cbn [map m_nodes m_atoms].
  destruct (span_spec false p None s) as (Hlen & _ & _).
  destruct (span false p None s) as [|n] eqn:E; cbn [backoff Nat.ltb Nat.leb].
  - reflexivity.
  - rewrite length_skipn. do 2 f_equal. lia.
Qed.

Lemma span_cons (p : ascii -> bool) (c : ascii) (s : str) :
  span false p None (c :: s) = if p c then S (span false p None s) else 0.
Proof. reflexivity. Qed.

(** Replacing the runs of a class by nothing removes the characters of
    the class. *)
Lemma sub_go_plus_filter (p : ascii -> bool) (s : str) :
  forall (prev : option ascii) (skip : nat),
    skip <= span false p None s ->
    sub_go false (seq [plus p]) [] prev s skip = filter (fun c => negb (p c)) s.
Proof.
  induction s as [|c s IH]; intros prev skip Hskip; [reflexivity|].
  cbn [sub_go filter]. rewrite span_cons in Hskip.
  destruct skip as [|k].
  - rewrite match_here_plus, span_cons.
    destruct (p c); cbn [negb].
    + cbn [app]. apply IH. lia.
    + f_equal. apply IH. lia.
  - destruct (p c); [|lia]. cbn [negb]. apply IH. lia.
Qed.

Lemma sub_plus_filter (p : ascii -> bool) (s : str) :
  sub (seq [plus p]) [] s = filter (fun c => negb (p c)) s.
Proof. apply sub_go_plus_filter. lia. Qed.

End SubFacts.

(** ** Paths, continued *)

Module PathExtra.
Import PyStr PyStrFacts Shapes OsPath OsPathFacts.

(** *** [rfind] *)

Lemma rfind_succ_absent (c : ascii) (s : str) :
  ~ In c s -> rfind_succ c s = 0.
Proof.
  induction s as [|a s IH]; [reflexivity|]. cbn [rfind_succ In]. intros H.
  rewrite IH by tauto.
  destruct (ascii_eqb a c) eqn:E; [|reflexivity].
  apply ascii_eqb_eq in E. tauto.
Qed.

Lemma rfind_succ_app_absent (c : ascii) (a b : str) :
  ~ In c b -> rfind_succ c (a ++ b) = rfind_succ c a.
Proof.
  intros H. induction a as [|x a IH]; cbn [app rfind_succ].
  - apply rfind_succ_absent, H.
  - rewrite IH. reflexivity.
Qed.

Lemma rfind_succ_last (c : ascii) (a : str) :
  rfind_succ c (a ++ [c]) = S (length a).
Proof.
  induction a as [|x a IH]; cbn [app rfind_succ length].
  - rewrite ascii_eqb_refl. reflexivity.
  - rewrite IH. reflexivity.
Qed.

(** Nothing after the position [rfind] gives is the character sought. *)
Lemma rfind_succ_tail (c : ascii) (s : str) :
  ~ In c (skipn (rfind_succ c s) s).
Proof.
  induction s as [|a s IH]; [auto|]. cbn [rfind_succ].
  destruct (rfind_succ c s) as [|k].
  - cbn [skipn] in IH. destruct (ascii_eqb a c) eqn:E; cbn [skipn]; [exact IH|].
    intros [H|H]; [|exact (IH H)].
    subst a. rewrite ascii_eqb_refl in E. discriminate.
  - exact IH.
Qed.

(** The character at that position is the one sought. *)
Lemma rfind_succ_found (c : ascii) (s : str) (k : nat) :
  rfind_succ c s = S k -> skipn k s = c :: skipn (S k) s.
Proof.
  revert k; induction s as [|a s IH]; intros k; [discriminate|].
  cbn [rfind_succ]. destruct (rfind_succ c s) as [|j] eqn:E.
  - destruct (ascii_eqb a c) eqn:Ea; [|discriminate].
    intros H; inversion H; subst k. apply ascii_eqb_eq in Ea. subst a. reflexivity.
  - intros H; inversion H; subst k. cbn [skipn]. exact (IH j eq_refl).
Qed.

Lemma basename_no_slash (p : str) : no_slash (basename p).
Proof. apply rfind_succ_tail. Qed.

Lemma splitext_pieces (p : str) (c : ascii) :
  In c (fst (splitext p)) \/ In c (snd (splitext p)) -> In c p.
Proof.
  rewrite <- in_app_iff, splitext_app. auto.
Qed.

(** *** Directories *)

Lemma rstrip_slash_spec (h : str) :
  forallb is_slash h = false ->
  exists f x, rstrip_slash h = f ++ [x] /\ x <> "/"%char.
Proof.
  unfold rstrip_slash. intros H.
  assert (Hr : forallb is_slash (rev h) = false).
  { destruct (forallb is_slash (rev h)) eqn:E; [|reflexivity].
    rewrite forallb_forall in E.
    assert (forallb is_slash h = true); [|congruence].
    apply forallb_forall. intros x Hx. apply E, in_rev. rewrite rev_involutive. exact Hx. }
  clear H. induction (rev h) as [|c r IH]; [discriminate|].
  cbn [forallb] in Hr. unfold is_slash in Hr at 1. simpl.
  destruct (ascii_eqb c "/") eqn:E.
  - apply IH. exact Hr.
  - exists (rev r), c. split; [reflexivity|].
    intros ->. discriminate E.
Qed.

Lemma dirname_trimmed (p : str) : trimmed (dirname p).
Proof.
  unfold dirname, split.
  destruct (forallb _ (firstn (rfind_succ "/" p) p)) eqn:E; cbn [fst].
  - left. exact E.
  - right. apply rstrip_slash_spec. exact E.
Qed.

Lemma rstrip_slash_last (f : str) (x : ascii) :
  x <> "/"%char -> rstrip_slash ((f ++ [x]) ++ py "/") = f ++ [x].
Proof.
  intros Hx. unfold rstrip_slash. rewrite !rev_app_distr. cbn.
  destruct (ascii_eqb x "/") eqn:E.
  - apply ascii_eqb_eq in E. contradiction.
  - cbn. rewrite rev_involutive. reflexivity.
Qed.

Lemma startswith_slash_no (name : str) :
  no_slash name -> startswith (py "/") name = false.
Proof.
  destruct name as [|c name]; [reflexivity|]. intros H.
  change (startswith (py "/") (c :: name)) with (ascii_eqb "/" c && true).
  destruct (ascii_eqb "/" c) eqn:E; [|reflexivity].
  apply ascii_eqb_eq in E. subst c. exfalso. apply H. left; reflexivity.
Qed.

(** Joining a directory and a name without slash, then splitting, gives
    both back. *)
Lemma split_join (folder name : str) :
  trimmed folder -> no_slash name ->
  split (join folder name) = (folder, name).
Proof.
  intros Hf Hn. unfold join. rewrite (startswith_slash_no name Hn).
  destruct Hf as [Hall|(f & x & -> & Hx)].
  - destruct (rev folder) as [|c r] eqn:R.
    + apply (f_equal (@rev ascii)) in R. rewrite rev_involutive in R. cbn in R. subst folder.
      unfold split. rewrite (rfind_succ_absent "/" name Hn). reflexivity.
    + assert (Hc : c = "/"%char).
      { rewrite forallb_forall in Hall. apply ascii_eqb_eq, Hall, in_rev.
        rewrite R. left; reflexivity. }
      subst c. rewrite ascii_eqb_refl.
      assert (Hfold : folder = rev r ++ ["/"%char]).
      { rewrite <- (rev_involutive folder), R. reflexivity. }
      assert (Hr : rfind_succ "/" folder = length folder).
      { rewrite Hfold, rfind_succ_last, length_app. cbn; lia. }
      unfold split. rewrite (rfind_succ_app_absent "/" folder name Hn), Hr.
      rewrite firstn_app, firstn_all, Nat.sub_diag, firstn_O, app_nil_r.
      rewrite skipn_app, skipn_all, Nat.sub_diag. cbn [skipn app].
      fold is_slash. rewrite Hall. reflexivity.
  - rewrite rev_app_distr. cbn [rev app].
    destruct (ascii_eqb x "/") eqn:E; [apply ascii_eqb_eq in E; contradiction|].
    unfold split.
    replace ((f ++ [x]) ++ py "/" ++ name) with (((f ++ [x]) ++ py "/") ++ name)
      by (rewrite <- !app_assoc; reflexivity).
    change (py "/") with ["/"%char].
    assert (Hr : rfind_succ "/" ((f ++ [x]) ++ ["/"%char])
                 = length ((f ++ [x]) ++ ["/"%char])).
    { rewrite rfind_succ_last, (length_app (f ++ [x])). cbn; lia. }
    rewrite (rfind_succ_app_absent "/" _ name Hn), Hr.
    rewrite firstn_app, firstn_all, Nat.sub_diag, firstn_O, app_nil_r.
    rewrite skipn_app, skipn_all, Nat.sub_diag. cbn [skipn app].
    assert (Hnot : forallb (fun c => ascii_eqb c "/") ((f ++ [x]) ++ ["/"%char]) = false).
    { rewrite !forallb_app. cbn [forallb]. rewrite E.
      rewrite andb_false_r. reflexivity. }
    rewrite Hnot. f_equal. exact (rstrip_slash_last f x Hx).
Qed.

End PathExtra.

(** ** Names *)

Module NameFacts.
Import PyStr PyStrFacts Py Datetime Shapes OsPath OsPathFacts PathExtra.

(** *** Digits *)

Lemma digit_char_digit (n : nat) : is_digit (digit_char n) = true.
Proof.
  unfold digit_char. pose proof (Nat.mod_upper_bound n 10 ltac:(discriminate)) as H.
  destruct (n mod 10) as [|[|[|[|[|[|[|[|[|[|k]]]]]]]]]]; try reflexivity. lia.
Qed.

Lemma pad_digits_digits (w n : nat) :
  Forall (fun c => is_digit c = true) (pad_digits w n).
Proof.
  revert n; induction w as [|w IH]; intros n; cbn [pad_digits]; [constructor|].
  apply Forall_app. split; [apply IH|]. repeat constructor. apply digit_char_digit.
Qed.

Lemma length_pad_digits (w n : nat) : length (pad_digits w n) = w.
Proof.
  revert n; induction w as [|w IH]; intros n; cbn [pad_digits]; [reflexivity|].
  rewrite length_app, IH. cbn; lia.
Qed.

Lemma digit_not_slash (c : ascii) : is_digit c = true -> c <> "/"%char.
Proof. intros H ->. discriminate H. Qed.

Lemma digits_no_slash (s : str) :
  Forall (fun c => is_digit c = true) s -> no_slash s.
Proof.
  intros H Hin. rewrite Forall_forall in H. exact (digit_not_slash _ (H _ Hin) eq_refl).
Qed.

Lemma no_slash_app (a b : str) : no_slash a -> no_slash b -> no_slash (a ++ b).
Proof. unfold no_slash. rewrite in_app_iff. tauto. Qed.

Lemma hyphen_no_slash : no_slash (py "-").
Proof. intros [H|[]]; discriminate H. Qed.

Lemma strftime_no_slash (d : datetime) : no_slash (strftime_Ymd d).
Proof.
  unfold strftime_Ymd.
  apply no_slash_app; [apply digits_no_slash, pad_digits_digits|].
  apply no_slash_app; [exact hyphen_no_slash|].
  apply no_slash_app; [apply digits_no_slash, pad_digits_digits|].
  apply no_slash_app; [exact hyphen_no_slash|].
  apply digits_no_slash, pad_digits_digits.
Qed.

(** *** The pieces of a name *)

Lemma replace_slash_no_slash (s : str) : no_slash (replace "/" (py "-") s).
Proof.
  unfold no_slash, replace. rewrite in_flat_map. intros (c & _ & Hc).
  destruct (ascii_eqb c "/") eqn:E.
  - destruct Hc as [H|[]]. discriminate H.
  - destruct Hc as [H|[]]. subst c. rewrite ascii_eqb_refl in E. discriminate.
Qed.

Lemma splitext_basename_no_slash (p : str) :
  no_slash (fst (splitext (basename p))) /\ no_slash (snd (splitext (basename p))).
Proof.
  split; intros H; apply (basename_no_slash p);
    apply (splitext_pieces (basename p)); auto.
Qed.

Lemma id_chars_no_slash (s : str) : forallb is_id_char s = true -> no_slash s.
Proof.
  intros H Hin. rewrite forallb_forall in H. specialize (H _ Hin). discriminate H.
Qed.

Lemma alnum_no_slash (s : str) :
  Forall (fun c => is_alnum c = true) s -> no_slash s.
Proof.
  intros H Hin. rewrite Forall_forall in H. specialize (H _ Hin). discriminate H.
Qed.

End NameFacts.

(** ** The invoice script, continued *)

Module InvoiceExtra.
Import PyStr PyStrFacts Re ReFacts Py Datetime World Samples Shapes.
Import OsPathFacts PathExtra NameFacts Invoice InvoiceSpec.

(** ** The short name *)

Theorem normalize_single_token (name : option str) (short : str) :
  normalize_company_name name = Ok short ->
  short <> [] /\ no_space short.
Proof.
  unfold normalize_company_name. intros H.
  destruct name as [[|c name]|]; cbn [normalize_company_name_with] in H.
  - inversion H; subst. split; [discriminate | repeat constructor].
  - destruct (find _ COMPANY_NORMALIZATION) as [[k v]|] eqn:F.
    + inversion H; subst short. rewrite (table_values _ _ _ F).
      split; [discriminate | repeat constructor].
    + destruct (split (strip (c :: name))) as [|w ws] eqn:S; [discriminate|].
      inversion H; subst short.
      destruct (fallback_word _ _ _ S) as (Hne & Hns & _). auto.
  - inversion H; subst. split; [discriminate | repeat constructor].
Qed.

Lemma normalize_single_token_witness :
  py "Acme" <> [] /\ no_space (py "Acme").
Proof.
  apply (normalize_single_token (Some (py "  Acme Pest Control, Inc. "))).
  vm_compute; reflexivity.
Defined.

(** ** The company name *)

Theorem find_company_name_none_iff (lines : list str) :
  find_company_name lines = None <-> lines = [].
Proof.
  unfold find_company_name. split.
  - destruct lines as [|l lines]; [reflexivity|].
    destruct (match first_index is_anchor (l :: lines) with
              | Some i => _
              | None => None
              end) as [[|c r]|]; discriminate.
  - intros ->. reflexivity.
Qed.

Lemma find_skips {A : Type} (f : A -> bool) (skipped rest : list A) (x : A) :
  Forall (fun y => f y = false) skipped -> f x = true ->
  find f (skipped ++ x :: rest) = Some x.
Proof.
  intros H Hx; induction H as [|y skipped Hy _ IH]; cbn [app find].
  - rewrite Hx; reflexivity.
  - rewrite Hy; exact IH.
Qed.

Theorem find_company_name_above_anchor
    (above skipped post : list str) (cand anchor : str) :
  Forall (fun line => is_anchor line = false) (above ++ cand :: skipped) ->
  is_anchor anchor = true ->
  Forall (fun line => is_business_name (strip line) = false) skipped ->
  is_business_name (strip cand) = true ->
  find_company_name (above ++ cand :: skipped ++ anchor :: post)
  = Some (strip cand).
Proof.
  intros Hno Ha Hskip Hcand.
  assert (E : above ++ cand :: skipped ++ anchor :: post
              = (above ++ cand :: skipped) ++ anchor :: post).
  { rewrite <- app_assoc. reflexivity. }
  rewrite E. unfold find_company_name.
  rewrite (first_index_app is_anchor _ post anchor Hno Ha).
  rewrite firstn_app, firstn_all, Nat.sub_diag, firstn_O, app_nil_r.
  rewrite rev_app_distr. cbn [rev]. rewrite <- app_assoc. cbn [app].
  rewrite map_app. cbn [map].
  rewrite (find_skips is_business_name (map strip (rev skipped))
             (map strip (rev above)) (strip cand)).
  - destruct (strip cand) as [|c r] eqn:S; [discriminate Hcand|].
    destruct ((above ++ cand :: skipped) ++ anchor :: post); reflexivity.
  - apply Forall_map, Forall_rev. exact Hskip.
  - exact Hcand.
Qed.

Lemma find_company_name_above_anchor_witness :
  find_company_name
    ([py "Page 1 of 1"] ++ py "  Meriwether Pest & Wildlife Control  "
       :: [py "Account # 7731"; py "   "; py "date 09/22/2025"]
       ++ py "Invoice #52359" :: [py "Subtotal $184.50"])
  = Some (strip (py "  Meriwether Pest & Wildlife Control  ")).
Proof.
  apply (find_company_name_above_anchor
           [py "Page 1 of 1"]
           [py "Account # 7731"; py "   "; py "date 09/22/2025"]
           [py "Subtotal $184.50"]
           (py "  Meriwether Pest & Wildlife Control  ") (py "Invoice #52359")).
  - repeat constructor.
  - vm_compute; reflexivity.
  - repeat constructor.
  - vm_compute; reflexivity.
Defined.

(** ** The invoice number *)

Lemma cls_alnum_or_hyphen (ic : bool) (a : ascii) :
  cls_ok ic (either is_alnum (chr "-")) a = true ->
  is_alnum a = true \/ a = "-"%char.
Proof. destruct ic; each_char a. Qed.

Lemma digit_alnum (a : ascii) : is_digit a = true -> is_alnum a = true.
Proof. each_char a. Qed.

Lemma group_of_plus (ic : bool) (p : ascii -> bool) (lo : nat) (hi : option nat)
    (c : str) :
  consumes ic [Cls p lo hi] c ->
  lo <= length c /\ Forall (fun a => cls_ok ic p a = true) c.
Proof.
  cbn [consumes]. intros (run & c' & -> & Hrun & Hlo & _ & ->).
  rewrite app_nil_r. auto.
Qed.

Theorem find_invoice_number_shape (lines : list str) (number : str) :
  find_invoice_number lines = Some number ->
  number <> [] /\ forallb is_id_char number = true.
Proof.
  unfold find_invoice_number.
  destruct (first_some (search INVOICE_NO_RE true) lines) as [m|] eqn:E1.
  - intros H; inversion H; subst number; clear H.
    destruct (first_some_in _ _ _ E1) as (line & _ & Hs).
    apply search_sound in Hs.
    destruct Hs as [[Hn _]|(body & c & Hb & Hm & Hc)]; [discriminate Hn|].
    assert (body = [plus (either is_alnum (chr "-"))]) as ->.
    { cbn in Hb. repeat (destruct Hb as [Hb|Hb]; [try discriminate Hb|]);
        try (inversion Hb; reflexivity); contradiction. }
    unfold group1; rewrite Hm.
    apply group_of_plus in Hc. destruct Hc as [Hlen Hall].
    split; [destruct c; [cbn in Hlen; lia | discriminate]|].
    apply forallb_forall. rewrite Forall_forall in Hall. intros a Ha.
    destruct (cls_alnum_or_hyphen true a (Hall a Ha)) as [H|H]; unfold is_id_char.
    + rewrite H; reflexivity.
    + subst a; reflexivity.
  - destruct (first_some (search HASH_NO_RE false) lines) as [m|] eqn:E2;
      [|discriminate].
    intros H; inversion H; subst number; clear H.
    destruct (first_some_in _ _ _ E2) as (line & _ & Hs).
    apply search_sound in Hs.
    destruct Hs as [[Hn _]|(body & c & Hb & Hm & Hc)]; [discriminate Hn|].
    assert (body = [at_least is_digit 4]) as ->.
    { cbn in Hb. repeat (destruct Hb as [Hb|Hb]; [try discriminate Hb|]);
        try (inversion Hb; reflexivity); contradiction. }
    unfold group1; rewrite Hm.
    apply group_of_plus in Hc. destruct Hc as [Hlen Hall].
    split; [destruct c; [cbn in Hlen; lia | discriminate]|].
    apply forallb_forall. rewrite Forall_forall in Hall. intros a Ha.
    unfold is_id_char. rewrite (digit_alnum a (Hall a Ha)). reflexivity.
Qed.

Lemma find_invoice_number_shape_witness :
  py "A-5235" <> [] /\ forallb is_id_char (py "A-5235") = true.
Proof.
  apply (find_invoice_number_shape
           [py "Meriwether"; py "Invoice # A-5235 / copy"]).
  vm_compute; reflexivity.
Defined.

(** ** The run of [process_invoice], continued *)

(** The new name of an invoice has no path separator. *)
Lemma build_new_filename_no_slash (path : str) (d : datetime)
    (short number : str) :
  no_slash number -> no_slash (build_new_filename path d short number).
Proof.
  intros Hn. unfold build_new_filename.
  destruct (splitext_basename_no_slash path) as [Hb He].
  destruct (OsPath.splitext (OsPath.basename path)) as [base ext]. cbn [fst snd] in Hb, He.
  apply no_slash_app; [apply strftime_no_slash|].
  apply no_slash_app; [exact hyphen_no_slash|].
  apply no_slash_app; [apply replace_slash_no_slash|].
  apply no_slash_app; [exact hyphen_no_slash|].
  apply no_slash_app; [|exact He].
  destruct number; [exact Hb|].
  apply no_slash_app; [|exact Hn].
  intros H. cbn in H. repeat (destruct H as [H|H]; [discriminate H|]). exact H.
Qed.

(** What extraction returns, field by field. *)
Lemma extract_invoice_fields_ok (w : world) (pdf_path : str) (f : fields) :
  extract_invoice_fields w pdf_path = Ok f ->
  let lines := text_lines (document_text w pdf_path) in
  find_service_date w lines = Ok (Some (service_date f)) /\
  company_name f = find_company_name lines /\
  invoice_number f = find_invoice_number lines /\
  amount f = find_amount lines /\
  raw_text f = document_text w pdf_path.
Proof.
  unfold extract_invoice_fields, extract_fields_of_text. cbn zeta.
  destruct (find_service_date w _) as [[d|]|]; cbn; intros H; inversion H.
  cbn. auto.
Qed.

Lemma extract_invoice_fields_value_error (w : world) (pdf_path : str) (e : exn) :
  extract_invoice_fields w pdf_path = Raise e -> exists msg, e = ValueError msg.
Proof.
  intros H.
  destruct (extract_invoice_fields_undated w pdf_path) as [msg E].
  - intros d Hd. rewrite (extract_invoice_fields_dated w pdf_path d Hd) in H.
    discriminate.
  - rewrite E in H. inversion H. eauto.
Qed.

Theorem process_invoice_failure (w : world) (pdf_path : str) (rename : bool)
    (evs : list event) (e : exn) :
  process_invoice w pdf_path rename = (evs, Raise e) ->
  evs = [] /\ exists msg, e = ValueError msg.
Proof.
  intros H.
  destruct (extract_invoice_fields w pdf_path) as [f|e'] eqn:E.
  - destruct (process_invoice_returns w pdf_path rename f E) as [name Hn].
    rewrite H in Hn. discriminate.
  - rewrite (process_invoice_raises w pdf_path rename e' E) in H.
    inversion H; subst. split; [reflexivity|].
    exact (extract_invoice_fields_value_error w pdf_path e E).
Qed.

Lemma process_invoice_failure_witness :
  @nil event = [] /\
  exists msg, ValueError (py "Could not find service date") = ValueError msg.
Proof.
  apply (process_invoice_failure invoice_without_date_or_subtotal
           (py "/in/scan.pdf") true).
  vm_compute; reflexivity.
Defined.

Theorem process_invoice_in_place (w : world) (pdf_path : str)
    (evs : list event) (new_path : str) :
  process_invoice w pdf_path true = (evs, Ok new_path) ->
  exists new_name,
    process_invoice w pdf_path false
    = ([Print (py "Would rename to: " ++ new_name)], Ok new_name) /\
    evs = [Rename pdf_path new_path; Print (py "Renamed to: " ++ new_path)] /\
    no_slash new_name /\
    OsPath.split new_path = (OsPath.dirname pdf_path, new_name).
Proof.
  unfold process_invoice.
  destruct (extract_invoice_fields w pdf_path) as [f|e] eqn:E;
    [|cbn; discriminate].
  unfold lift. cbn [io_bind].
  destruct (normalize_company_name (company_name f)) as [short|e] eqn:N;
    [|cbn; discriminate].
  cbn [io_bind app].
  set (new_name := build_new_filename pdf_path (service_date f) short
                     (or_empty (invoice_number f))).
  cbn. intros H; inversion H; subst evs new_path; clear H.
  assert (Hns : no_slash new_name).
  { apply build_new_filename_no_slash.
    destruct (extract_invoice_fields_ok w pdf_path f E) as (_ & _ & Hnum & _).
    destruct (invoice_number f) as [n|] eqn:En; [|intros []].
    symmetry in Hnum. cbn [or_empty].
    apply id_chars_no_slash.
    exact (proj2 (find_invoice_number_shape _ _ Hnum)). }
  exists new_name. repeat split; auto.
  apply split_join; [apply dirname_trimmed | exact Hns].
Qed.

Lemma process_invoice_in_place_witness :
  exists new_name,
    process_invoice invoice_labeled (py "/in/scan.pdf") false
    = ([Print (py "Would rename to: " ++ new_name)], Ok new_name) /\
    [Rename (py "/in/scan.pdf") (py "/in/2025-09-22-Meriwether-Invoice #52359.pdf");
     Print (py "Renamed to: /in/2025-09-22-Meriwether-Invoice #52359.pdf")]
    = [Rename (py "/in/scan.pdf") (py "/in/2025-09-22-Meriwether-Invoice #52359.pdf");
       Print (py "Renamed to: " ++ py "/in/2025-09-22-Meriwether-Invoice #52359.pdf")] /\
    no_slash new_name /\
    OsPath.split (py "/in/2025-09-22-Meriwether-Invoice #52359.pdf")
    = (OsPath.dirname (py "/in/scan.pdf"), new_name).
Proof.
  apply (process_invoice_in_place invoice_labeled (py "/in/scan.pdf")).
  vm_compute; reflexivity.
Defined.

End InvoiceExtra.

(** ** The receipt script, continued *)

Module ReceiptExtra.
Import PyStr PyStrFacts Re ReFacts Py Datetime World Samples Shapes.
Import Receipt ReceiptSpec SubFacts.

Lemma filter_alnum (s : str) :
  filter (fun c => negb (negb (is_alnum c))) s = filter is_alnum s.
Proof. apply filter_ext. intros c. apply negb_involutive. Qed.

Theorem sanitize_company_alnum (company : str) :
  sanitize_company company
  = match filter is_alnum company with
    | [] => py "Unknown"
    | cleaned => cleaned
    end
  /\ sanitize_company company <> []
  /\ Forall (fun c => is_alnum c = true) (sanitize_company company).
Proof.
  unfold sanitize_company, NOT_ALNUM_RE. rewrite sub_plus_filter, filter_alnum.
  split; [reflexivity|].
  destruct (filter is_alnum company) as [|c r] eqn:E.
  - split; [discriminate | repeat constructor].
  - split; [discriminate|]. rewrite <- E. apply Forall_forall.
    intros x Hx. apply filter_In in Hx. tauto.
Qed.

End ReceiptExtra.
